(** * SomnaSync: the sleep-stage training script [train_sleep_model.py]

    A shallow embedding of the script: the synthetic data generator, the
    train/test splitter and the metadata composer, which carry its logic,
    and the training step and [main], which drive the trainer, the
    console and the files.

    Modelling conventions.
    - Python floats are rationals ([Q]); a literal denotes its decimal
      value and arithmetic is exact.  Comparisons, [min] and [max] are
      modelled exactly as Python evaluates them.
    - numpy's global random generator is an explicit state that is
      threaded through every draw (a small state monad).  The generator
      itself is a library: its operations are the fields of
      [np_random.RandomState], and what the proofs need from the library
      is stated as a law on such a record.
    - A pandas frame is a list of labelled rows, the label being the
      index entry of the row.  Frames are those [pd.DataFrame] makes of a
      list of records, so the frame without rows is the one without
      columns.
    - A raised exception is the [Raise] result. *)

From Stdlib Require Import ZArith QArith Qround Qabs List Permutation Lia Ascii.
From stdpp Require Import gmap strings list pretty.

Local Open Scope Z_scope.

(** ** Python values and builtins used by the script *)

Inductive PyExc : Type :=
| KeyError (key : string)
| ValueError (msg : string)
| IndexError (msg : string).

Inductive res (A : Type) : Type :=
| Ok (a : A)
| Raise (e : PyExc).

Arguments Ok {A} a.
Arguments Raise {A} e.

(** [x < y] on floats. *)
Definition Qltb (x y : Q) : bool := negb (Qle_bool y x).

(** [min(a, b)]: Python keeps the first argument unless the second is
    strictly smaller. *)
Definition py_min (a b : Q) : Q := if Qltb b a then b else a.

(** [max(a, b)]: Python keeps the first argument unless the second is
    strictly larger. *)
Definition py_max (a b : Q) : Q := if Qltb a b then b else a.

(** ** The state monad of the random stream *)

Definition M (S A : Type) : Type := S -> A * S.

Definition ret {S A : Type} (a : A) : M S A := fun s => (a, s).

Definition bind {S A B : Type} (m : M S A) (k : A -> M S B) : M S B :=
  fun s => let (a, s') := m s in k a s'.

Notation "x <- c ;; k" := (bind c (fun x => k))
  (at level 100, c at next level, right associativity).

(** ** numpy.random

    [seed] installs a fresh state computed from the seed alone; every
    other operation reads the state and advances it. *)

Module np_random.

Record RandomState : Type := {
  state : Type;
  seed : Z -> state;
  uniform : Q -> Q -> M state Q;
  choice : list Z -> list Q -> M state Z;
  normal : Q -> Q -> M state Q;
  exponential : Q -> M state Q;
  random : M state Q
}.

(** [choice(a, p=...)] returns one of the entries of [a]. *)
Definition choice_in_options (R : RandomState) : Prop :=
  forall (a : list Z) (p : list Q) (g : state R),
    a <> [] -> In (fst (choice R a p g)) a.

End np_random.

(** ** The generated table *)

Record SleepRow : Type := {
  heartRate : Q;
  hrv : Q;
  movement : Q;
  bloodOxygen : Q;
  temperature : Q;
  breathingRate : Q;
  timeOfNight : Q;
  previousStage : Z;
  stage : Z
}.

(** A frame: rows with their index labels, in row order. *)
Abbreviation DataFrame := (list (Z * SleepRow)).

(** [range(n)] as the list of its values. *)
Definition range (n : Z) : list Z := map Z.of_nat (seq 0 (Z.to_nat n)).

(** [pd.DataFrame(data)] on a list of records: the rows get the default
    index 0, 1, ..., len(data)-1. *)
Definition pd_DataFrame (data : list SleepRow) : DataFrame :=
  combine (range (Z.of_nat (length data))) data.

Section Generator.

Variable R : np_random.RandomState.

Abbreviation rng := (np_random.state R).

(** The [if]/[elif]/[else] chain on [time_of_night]: the stage draw
    and the six base draws of the phase. *)
Definition phase_bucket (time_of_night : Q) : M rng (Z * (Q * Q * Q * Q * Q * Q)) :=
  if Qltb time_of_night 1 then
    stage <- np_random.choice R [0; 1] [0.3; 0.7]%Q ;;
    heart_rate <- np_random.normal R 65 8 ;;
    hrv <- np_random.normal R 35 10 ;;
    movement <- np_random.exponential R 0.3 ;;
    blood_oxygen <- np_random.normal R 96 1.5 ;;
    temperature <- np_random.normal R 36.8 0.3 ;;
    breathing_rate <- np_random.normal R 14 2 ;;
    ret (stage, (heart_rate, hrv, movement, blood_oxygen, temperature, breathing_rate))
  else if Qltb time_of_night 3 then
    stage <- np_random.choice R [1; 2] [0.4; 0.6]%Q ;;
    heart_rate <- np_random.normal R 55 6 ;;
    hrv <- np_random.normal R 45 8 ;;
    movement <- np_random.exponential R 0.1 ;;
    blood_oxygen <- np_random.normal R 97 1 ;;
    temperature <- np_random.normal R 36.5 0.2 ;;
    breathing_rate <- np_random.normal R 12 1.5 ;;
    ret (stage, (heart_rate, hrv, movement, blood_oxygen, temperature, breathing_rate))
  else if Qltb time_of_night 5 then
    stage <- np_random.choice R [1; 3] [0.3; 0.7]%Q ;;
    heart_rate <- np_random.normal R 60 10 ;;
    hrv <- np_random.normal R 40 12 ;;
    movement <- np_random.exponential R 0.2 ;;
    blood_oxygen <- np_random.normal R 96.5 1.2 ;;
    temperature <- np_random.normal R 36.7 0.4 ;;
    breathing_rate <- np_random.normal R 16 3 ;;
    ret (stage, (heart_rate, hrv, movement, blood_oxygen, temperature, breathing_rate))
  else
    stage <- np_random.choice R [0; 1; 2; 3] [0.2; 0.4; 0.2; 0.2]%Q ;;
    heart_rate <- np_random.normal R 62 9 ;;
    hrv <- np_random.normal R 38 11 ;;
    movement <- np_random.exponential R 0.25 ;;
    blood_oxygen <- np_random.normal R 96.8 1.3 ;;
    temperature <- np_random.normal R 36.6 0.3 ;;
    breathing_rate <- np_random.normal R 15 2.5 ;;
    ret (stage, (heart_rate, hrv, movement, blood_oxygen, temperature, breathing_rate)).

(** The body of the [for] loop: one record of [data]. *)
Definition sample_row : M rng SleepRow :=
  time_of_night <- np_random.uniform R 0 8 ;;
  base <- phase_bucket time_of_night ;;
  let '(stage, (heart_rate, hrv, movement, blood_oxygen, temperature, breathing_rate)) := base in
  n_hr <- np_random.normal R 0 3 ;;
  let heart_rate := py_max 40 (py_min 100 (heart_rate + n_hr)) in
  n_hrv <- np_random.normal R 0 5 ;;
  let hrv := py_max 10 (py_min 80 (hrv + n_hrv)) in
  n_mv <- np_random.normal R 0 0.1 ;;
  let movement := py_min 1.0 (movement + n_mv) in
  n_bo <- np_random.normal R 0 0.5 ;;
  let blood_oxygen := py_max 90 (py_min 100 (blood_oxygen + n_bo)) in
  n_t <- np_random.normal R 0 0.1 ;;
  let temperature := py_max 35.5 (py_min 37.5 (temperature + n_t)) in
  n_br <- np_random.normal R 0 1 ;;
  let breathing_rate := py_max 8 (py_min 25 (breathing_rate + n_br)) in
  u <- np_random.random R ;;
  let previous_stage := if Qltb 0.3 u then (stage - 1) `mod` 4 else stage in
  ret {| heartRate := heart_rate;
         hrv := hrv;
         movement := movement;
         bloodOxygen := blood_oxygen;
         temperature := temperature;
         breathingRate := breathing_rate;
         timeOfNight := time_of_night;
         previousStage := previous_stage;
         stage := stage |}.

(** [for i in range(n_samples): ... data.append(...)], with [k] iterations
    left and [data] the list built so far. *)
Fixpoint sample_loop (k : nat) (data : list SleepRow) : M rng (list SleepRow) :=
  match k with
  | O => ret data
  | S k' => row <- sample_row ;; sample_loop k' (data ++ [row])
  end.

(** [generate_synthetic_sleep_data(n_samples)].  The argument [g] is the
    state of the global generator when the function is called; the first
    statement replaces it by the state seeded with 42. *)
Definition generate_synthetic_sleep_data (n_samples : Z) : M rng DataFrame :=
  fun g =>
    let g0 := np_random.seed R 42 in
    let (data, g') := sample_loop (Z.to_nat n_samples) [] g0 in
    (pd_DataFrame data, g').

End Generator.

(** ** A table-driven random stream

    An instance of the library interface that replays a given list of
    variates: [seed] rewinds to the start of the list, every draw
    consumes one entry (0 once the list is used up).  [uniform] and
    [normal] rescale the entry, [exponential] rescales its absolute value
    and [choice] inverts the cumulative weights, as numpy does on a
    uniform variate. *)

Module Tape.

Definition pop : M (list Q) Q :=
  fun g => match g with
           | [] => (0%Q, [])
           | u :: g' => (u, g')
           end.

Fixpoint pick (a : list Z) (p : list Q) (u : Q) : Z :=
  match a, p with
  | [], _ => 0
  | [x], _ => x
  | x :: _, [] => x
  | x :: a', q :: p' => if Qltb u q then x else pick a' p' (u - q)%Q
  end.

Definition replay (draws : list Q) : np_random.RandomState := {|
  np_random.state := list Q;
  np_random.seed := fun _ => draws;
  np_random.uniform := fun low high => u <- pop ;; ret (low + (high - low) * u)%Q;
  np_random.choice := fun a p => u <- pop ;; ret (pick a p u);
  np_random.normal := fun loc scale => z <- pop ;; ret (loc + scale * z)%Q;
  np_random.exponential := fun scale => e <- pop ;; ret (scale * Qabs e)%Q;
  np_random.random := pop
|}.

End Tape.

(** ** The train/test splitter *)

(** A row of [X = df[feature_columns]]. *)
Record FeatureRow : Type := {
  x_heartRate : Q;
  x_hrv : Q;
  x_movement : Q;
  x_bloodOxygen : Q;
  x_temperature : Q;
  x_breathingRate : Q;
  x_timeOfNight : Q;
  x_previousStage : Z
}.

Definition feature_columns (r : SleepRow) : FeatureRow := {|
  x_heartRate := heartRate r;
  x_hrv := hrv r;
  x_movement := movement r;
  x_bloodOxygen := bloodOxygen r;
  x_temperature := temperature r;
  x_breathingRate := breathingRate r;
  x_timeOfNight := timeOfNight r;
  x_previousStage := previousStage r
|}.

(** A feature row with the column ['stage'] added. *)
Definition with_stage (x : FeatureRow) (s : Z) : SleepRow := {|
  heartRate := x_heartRate x;
  hrv := x_hrv x;
  movement := x_movement x;
  bloodOxygen := x_bloodOxygen x;
  temperature := x_temperature x;
  breathingRate := x_breathingRate x;
  timeOfNight := x_timeOfNight x;
  previousStage := x_previousStage x;
  stage := s
|}.

Definition and_then {A B : Type} (r : res A) (k : A -> res B) : res B :=
  match r with
  | Ok a => k a
  | Raise e => Raise e
  end.

Notation "x <~ c ;; k" := (and_then c (fun x => k))
  (at level 100, c at next level, right associativity).

(** *** sklearn.model_selection

    [train_test_split(X, y, test_size, random_state, stratify)] as the
    library documents and implements it: the sizes and the three checks
    of the stratified splitter are computed here; the seeded shuffle that
    picks the rows is the library's, a field of [Shuffle]. *)

Module sklearn.

Record Shuffle : Type := {
  positions : list Z -> nat -> nat -> list nat * list nat
}.

(** What the stratified shuffle guarantees: with the two sizes adding up
    to the number of rows, the train and test positions have these sizes
    and together are the positions 0 .. n-1, each once. *)
Definition partitions (S : Shuffle) : Prop :=
  forall (y : list Z) (n_train n_test : nat),
    (n_train + n_test)%nat = length y ->
    Permutation (fst (positions S y n_train n_test) ++ snd (positions S y n_train n_test))
                (seq 0 (length y))
    /\ length (fst (positions S y n_train n_test)) = n_train
    /\ length (snd (positions S y n_train n_test)) = n_test.

(** [_validate_shuffle_split] for a float [test_size] and no
    [train_size]. *)
Definition validate_shuffle_split (n_samples : Z) (test_size : Q) : res (Z * Z) :=
  if Qle_bool test_size 0 || Qle_bool 1 test_size then
    Raise (ValueError "test_size should be in the (0, 1) range")
  else
    let n_test := Qceiling (test_size * inject_Z n_samples) in
    let n_train := n_samples - n_test in
    if n_train =? 0 then
      Raise (ValueError "the resulting train set will be empty")
    else Ok (n_train, n_test).

(** [StratifiedShuffleSplit._iter_indices], first split. *)
Definition stratified_shuffle_split (S : Shuffle) (y : list Z) (n_train n_test : Z)
    : res (list nat * list nat) :=
  let classes := nodup Z.eq_dec y in
  let class_counts := map (count_occ Z.eq_dec y) classes in
  if existsb (fun k => (k <? 2)%nat) class_counts then
    Raise (ValueError "The least populated class in y has only 1 member, which is too few")
  else if n_train <? Z.of_nat (length classes) then
    Raise (ValueError "The train_size should be greater or equal to the number of classes")
  else if n_test <? Z.of_nat (length classes) then
    Raise (ValueError "The test_size should be greater or equal to the number of classes")
  else Ok (positions S y (Z.to_nat n_train) (Z.to_nat n_test)).

(** [_safe_indexing(a, idx)]: the rows of [a] at the positions [idx]. *)
Definition safe_indexing {A : Type} (a : list A) (idx : list nat) : res (list A) :=
  match mapM (fun i => a !! i) idx with
  | Some rows => Ok rows
  | None => Raise (IndexError "positional indexers are out-of-bounds")
  end.

Definition train_test_split {A B : Type} (S : Shuffle)
    (X : list A) (y : list B) (test_size : Q) (stratify : list Z)
    : res (list A * list A * list B * list B) :=
  if negb (length X =? length y)%nat then
    Raise (ValueError "Found input variables with inconsistent numbers of samples")
  else
    sizes <~ validate_shuffle_split (Z.of_nat (length X)) test_size ;;
    split <~ stratified_shuffle_split S stratify (fst sizes) (snd sizes) ;;
    X_train <~ safe_indexing X (fst split) ;;
    X_test <~ safe_indexing X (snd split) ;;
    y_train <~ safe_indexing y (fst split) ;;
    y_test <~ safe_indexing y (snd split) ;;
    Ok (X_train, X_test, y_train, y_test).

(** The plainest shuffle with the guarantee: the first rows to train, the
    rest to test. *)
Definition in_order : Shuffle := {|
  positions := fun _ n_train n_test => (seq 0 n_train, seq n_train n_test)
|}.

End sklearn.

(** [frame['stage'] = column].  pandas aligns the column on the index of
    the frame; here both come out of [train_test_split] at the same
    positions of [X] and [y], so they carry the same index and the values
    are assigned row by row. *)
Definition set_stage (frame : list (Z * FeatureRow)) (column : list (Z * Z)) : DataFrame :=
  zip_with (fun x s => (fst x, with_stage (snd x) (snd s))) frame column.

(** [df[feature_columns]] (line 102).  A frame that [pd.DataFrame] makes
    from a list of records has the columns of its records: the nine
    columns when there is a record, and no column at all when the list is
    empty.  Selecting the feature columns of a frame without columns
    raises [KeyError]. *)
Definition select_features (df : DataFrame) : res (list (Z * FeatureRow)) :=
  match df with
  | [] =>
      Raise (KeyError "None of [Index(['heartRate', 'hrv', 'movement', 'bloodOxygen', 'temperature', 'breathingRate', 'timeOfNight', 'previousStage'], dtype='object')] are in the [columns]")
  | _ :: _ => Ok (map (fun r => (fst r, feature_columns (snd r))) df)
  end.

Section Splitter.

Variable S : sklearn.Shuffle.

Definition create_ml_training_data (df : DataFrame) : res (DataFrame * DataFrame) :=
  X <~ select_features df ;;
  let y := map (fun r => (fst r, stage (snd r))) df in
  parts <~ sklearn.train_test_split S X y 0.2 (map snd y) ;;
  let '(X_train, X_test, y_train, y_test) := parts in
  let train_df := set_stage X_train y_train in
  let test_df := set_stage X_test y_test in
  Ok (train_df, test_df).

End Splitter.

(** ** The metadata composer *)

Record ModelInfo : Type := {
  name : string;
  version : string;
  description : string;
  author : string;
  license : string;
  creation_date : string
}.

Record TrainingInfo : Type := {
  algorithm : string;
  architecture : string;
  training_samples : Z;
  validation_samples : Z;
  epochs : Z;
  batch_size : Z;
  learning_rate : Q
}.

Record PerformanceMetrics : Type := {
  accuracy : Q;
  precision : Q;
  recall : Q;
  f1_score : Q
}.

Record Features : Type := {
  input_features : list string;
  output_classes : list string;
  feature_descriptions : list (string * string)
}.

Record Metadata : Type := {
  model_info : ModelInfo;
  training_info : TrainingInfo;
  performance_metrics : PerformanceMetrics;
  features : Features
}.

(** [d[key]] on a dict. *)
Definition getitem (d : gmap string Q) (key : string) : res Q :=
  match d !! key with
  | Some v => Ok v
  | None => Raise (KeyError key)
  end.

(** [d.get(key, default)]. *)
Definition get (d : gmap string Q) (key : string) (default : Q) : Q :=
  match d !! key with
  | Some v => v
  | None => default
  end.

(** [create_model_metadata(evaluation_metrics)].  The dict display is
    evaluated entry by entry, so the three subscripts are tried in the
    order accuracy, precision, recall, before [get]. *)
Definition create_model_metadata (evaluation_metrics : gmap string Q) : res Metadata :=
  acc <~ getitem evaluation_metrics "accuracy" ;;
  prec <~ getitem evaluation_metrics "precision" ;;
  rec <~ getitem evaluation_metrics "recall" ;;
  let f1 := get evaluation_metrics "f1" 0.0 in
  Ok {|
    model_info := {|
      name := "SleepStagePredictor";
      version := "1.0";
      description := "Neural network for sleep stage prediction using biometric data";
      author := "SomnaSync Pro";
      license := "MIT";
      creation_date := "2024-01-15"
    |};
    training_info := {|
      algorithm := "Neural Network";
      architecture := "64-32-4 (ReLU activation)";
      training_samples := 8000;
      validation_samples := 2000;
      epochs := 100;
      batch_size := 32;
      learning_rate := 0.001
    |};
    performance_metrics := {|
      accuracy := acc;
      precision := prec;
      recall := rec;
      f1_score := f1
    |};
    features := {|
      input_features := [
        "heartRate"; "hrv"; "movement"; "bloodOxygen";
        "temperature"; "breathingRate"; "timeOfNight"; "previousStage"
      ];
      output_classes := ["awake"; "light"; "deep"; "rem"];
      feature_descriptions := [
        ("heartRate", "Heart rate in BPM");
        ("hrv", "Heart rate variability in ms");
        ("movement", "Movement intensity (0-1)");
        ("bloodOxygen", "Blood oxygen saturation %");
        ("temperature", "Body temperature in Celsius");
        ("breathingRate", "Breathing rate per minute");
        ("timeOfNight", "Time since sleep start in hours");
        ("previousStage", "Previous sleep stage (0-3)")
      ]
    |}
  |}.

(** ** The trainer, the console and the files

    The rest of the script drives collaborators: the Create ML trainer,
    [print], [os.makedirs], [model.save] and [json.dump].  The trainer is
    a library, taken as a record of its operations; the metrics of a
    model are a value.  What the script prints and writes is recorded, in
    order, as a list of events; the console and the file system are taken
    not to fail. *)

Module cm.

Record Layer : Type := {
  type : string;
  outputSize : Z;
  activation : string
}.

Record Parameters : Type := {
  layers : list Layer;
  learningRate : Q;
  epochs : Z;
  batchSize : Z
}.

Record Config : Type := {
  algorithm : string;
  parameters : Parameters
}.

(** [neural_network_classifier(training_data, target_column, features,
    validation_data, parameters)] returns a model or raises;
    [model.evaluation_metrics] is the dict of its metrics. *)
Record Library : Type := {
  model : Type;
  neural_network_classifier :
    DataFrame -> string -> list string -> DataFrame -> Config -> res model;
  evaluation_metrics : model -> gmap string Q
}.

End cm.

Inductive Event (Model : Type) : Type :=
| Printed (line : string)
| MadeDirs (path : string)
| Saved (m : Model) (path : string)
| Dumped (path : string) (obj : Metadata) (indent : Z).

Arguments Printed {Model} line.
Arguments MadeDirs {Model} path.
Arguments Saved {Model} m path.
Arguments Dumped {Model} path obj indent.

Fixpoint endswith_sep (s : string) : bool :=
  match s with
  | EmptyString => false
  | String c EmptyString => Ascii.eqb c "/"%char
  | String _ s' => endswith_sep s'
  end.

(** [os.path.join(a, b)] of [posixpath]. *)
Definition os_path_join (a b : string) : string :=
  if String.prefix "/" b then b
  else if String.eqb a "" || endswith_sep a then a +:+ b
  else a +:+ "/" +:+ b.

Section Pipeline.

Variable R : np_random.RandomState.
Variable S : sklearn.Shuffle.
Variable T : cm.Library.

(** [format(x, '.3f')], the conversion the f-strings apply. *)
Variable format_3f : Q -> string.

(** The state the script runs in: the global random generator and what
    has been printed and written so far. *)
Record World : Type := {
  generator : np_random.state R;
  events : list (Event (cm.model T))
}.

(** A statement: it raises or yields a value, and leaves a world; what
    was printed and written before a raise stays. *)
Definition IO (A : Type) : Type := World -> res A * World.

Definition io_ret {A : Type} (a : A) : IO A := fun w => (Ok a, w).

Definition io_bind {A B : Type} (m : IO A) (k : A -> IO B) : IO B :=
  fun w => match m w with
           | (Ok a, w') => k a w'
           | (Raise e, w') => (Raise e, w')
           end.

Notation "x <-- c ;; k" := (io_bind c (fun x => k))
  (at level 100, c at next level, right associativity).

Notation "c ;;; k" := (io_bind c (fun _ => k))
  (at level 100, right associativity).

Definition emit (e : Event (cm.model T)) : IO unit :=
  fun w => (Ok tt, {| generator := generator w; events := events w ++ [e] |}).

Definition print (line : string) : IO unit := emit (Printed line).

(** A pure computation that may raise. *)
Definition lift {A : Type} (r : res A) : IO A := fun w => (r, w).

(** A computation on the random generator. *)
Definition draw {A : Type} (m : M (np_random.state R) A) : IO A :=
  fun w => let (a, g) := m (generator w) in
           (Ok a, {| generator := g; events := events w |}).

Definition model_config : cm.Config := {|
  cm.algorithm := "neuralNetwork";
  cm.parameters := {|
    cm.layers := [
      {| cm.type := "innerProduct"; cm.outputSize := 64; cm.activation := "relu" |};
      {| cm.type := "innerProduct"; cm.outputSize := 32; cm.activation := "relu" |};
      {| cm.type := "innerProduct"; cm.outputSize := 4; cm.activation := "softmax" |}
    ];
    cm.learningRate := 0.001;
    cm.epochs := 100;
    cm.batchSize := 32
  |}
|}.

Definition train_core_ml_model (train_data test_data : DataFrame) (output_path : string)
    : IO (cm.model T * gmap string Q) :=
  print "🤖 Training Core ML Sleep Stage Prediction Model..." ;;;
  model <-- lift (cm.neural_network_classifier T
                    train_data
                    "stage"
                    ["heartRate"; "hrv"; "movement"; "bloodOxygen";
                     "temperature"; "breathingRate"; "timeOfNight"; "previousStage"]
                    test_data
                    model_config) ;;
  let evaluation := cm.evaluation_metrics T model in
  acc <-- lift (getitem evaluation "accuracy") ;;
  print ("📊 Model Accuracy: " +:+ format_3f acc) ;;;
  prec <-- lift (getitem evaluation "precision") ;;
  print ("📊 Precision: " +:+ format_3f prec) ;;;
  rec <-- lift (getitem evaluation "recall") ;;
  print ("📊 Recall: " +:+ format_3f rec) ;;;
  emit (Saved model output_path) ;;;
  print ("✅ Model saved to: " +:+ output_path) ;;;
  io_ret (model, evaluation).

Definition main : IO (cm.model T * gmap string Q) :=
  print "🚀 Starting Sleep Stage Prediction Model Training..." ;;;
  let output_dir := "SomnaSync/ML" in
  emit (MadeDirs output_dir) ;;;
  print "📊 Generating synthetic sleep data..." ;;;
  sleep_data <-- draw (generate_synthetic_sleep_data R 10000) ;;
  print "🔧 Preparing training data..." ;;;
  split <-- lift (create_ml_training_data S sleep_data) ;;
  let '(train_data, test_data) := split in
  let model_path := os_path_join output_dir "SleepStagePredictor.mlmodel" in
  trained <-- train_core_ml_model train_data test_data model_path ;;
  let '(model, evaluation) := trained in
  metadata <-- lift (create_model_metadata evaluation) ;;
  let metadata_path := os_path_join output_dir "model_metadata.json" in
  emit (Dumped metadata_path metadata 2) ;;;
  print ("📋 Model metadata saved to: " +:+ metadata_path) ;;;
  print (String "010"%char "🎉 Training Complete!") ;;;
  print ("📁 Model: " +:+ model_path) ;;;
  print ("📁 Metadata: " +:+ metadata_path) ;;;
  acc <-- lift (getitem evaluation "accuracy") ;;
  print ("📊 Accuracy: " +:+ format_3f acc) ;;;
  io_ret (model, evaluation).

End Pipeline.

Arguments generator {R T} w.
Arguments events {R T} w.

(** The world [w] with further events [new]. *)
Definition added {R : np_random.RandomState} {T : cm.Library}
    (w : World R T) (new : list (Event (cm.model T))) : World R T :=
  {| generator := generator w; events := events w ++ new |}.

(** A trainer whose models are their metrics, and that always succeeds
    with the metrics it is made of; floats printed as nothing. *)
Definition fixed_trainer (metrics : gmap string Q) : cm.Library := {|
  cm.model := gmap string Q;
  cm.neural_network_classifier := fun _ _ _ _ _ => Ok metrics;
  cm.evaluation_metrics := fun m => m
|}.

Definition no_digits (x : Q) : string := "".

(** The row every draw of 0 gives, the only row of a replay of no
    variates; and an initial world, with nothing printed or written. *)
Definition silent_row : SleepRow := fst (sample_row (Tape.replay []) []).

Definition silent_world (T : cm.Library) : World (Tape.replay []) T :=
  {| generator := (@nil Q : np_random.state (Tape.replay [])); events := [] |}.

(** A trainer that always raises. *)
Definition failing_trainer : cm.Library := {|
  cm.model := unit;
  cm.neural_network_classifier := fun _ _ _ _ _ => Raise (ValueError "training failed");
  cm.evaluation_metrics := fun _ => ∅
|}.

(** ** Vocabulary of the specification *)

Definition Awake : Z := 0.
Definition Light : Z := 1.
Definition Deep : Z := 2.
Definition REM : Z := 3.

(** The stage column of the phase table of the specification: the
    classes a phase can yield and their probabilities. *)
Definition spec_stage_distribution (timeOfNight : Q) : list Z * list Q :=
  if Qltb timeOfNight 1 then ([Awake; Light], [0.3; 0.7]%Q)
  else if Qltb timeOfNight 3 then ([Light; Deep], [0.4; 0.6]%Q)
  else if Qltb timeOfNight 5 then ([Light; REM], [0.3; 0.7]%Q)
  else ([Awake; Light; Deep; REM], [0.2; 0.4; 0.2; 0.2]%Q).

(** The stage of a row belongs to the classes of the phase its
    [timeOfNight] falls in. *)
Definition stage_in_phase (r : SleepRow) : Prop :=
  ((timeOfNight r < 1)%Q -> In (stage r) [Awake; Light]) /\
  ((1 <= timeOfNight r)%Q /\ (timeOfNight r < 3)%Q -> In (stage r) [Light; Deep]) /\
  ((3 <= timeOfNight r)%Q /\ (timeOfNight r < 5)%Q -> In (stage r) [Light; REM]) /\
  ((5 <= timeOfNight r)%Q -> In (stage r) [Awake; Light; Deep; REM]).

(** The bounds the clamps of lines 66-71 enforce: both bounds of five
    fields, and the upper bound of [movement]. *)
Definition clamped (r : SleepRow) : Prop :=
  (40 <= heartRate r <= 100)%Q /\
  (10 <= hrv r <= 80)%Q /\
  (movement r <= 1)%Q /\
  (90 <= bloodOxygen r <= 100)%Q /\
  (35.5 <= temperature r <= 37.5)%Q /\
  (8 <= breathingRate r <= 25)%Q.

(** The [N] equally likely values of a uniform variate on [0, 1) at
    resolution [1/N] (numpy's [random()] has N = 2^53). *)
Definition uniform_grid (N : nat) : list Q :=
  map (fun k => inject_Z (Z.of_nat k) / inject_Z (Z.of_nat N))%Q (seq 0 N).

(** The stage column of a frame, as the list of its values. *)
Definition stages (df : DataFrame) : list Z := map (fun r => stage (snd r)) df.

(** The classes of a frame are the stage values that occur in it; a
    class has as many members as it has occurrences. *)
Definition classes (df : DataFrame) : list Z := nodup Z.eq_dec (stages df).

Definition class_count (df : DataFrame) (c : Z) : nat :=
  count_occ Z.eq_dec (stages df) c.

(** ** Concrete inputs *)

(** A list of variates on which the movement of the only row comes out
    below zero: time of night 2, an exponential draw of 0.05 and a jitter
    of -0.2 (the other variates are immaterial). *)
Definition negative_movement_draws : list Q :=
  [ 0.25; 0; 0; 0; 0.5; 0; 0; 0; 0; 0; -2; 0; 0; 0; 0.5 ]%Q.

Definition light_row : SleepRow := {|
  heartRate := 60; hrv := 40; movement := 0.1; bloodOxygen := 97;
  temperature := 36.6; breathingRate := 14; timeOfNight := 2;
  previousStage := Awake; stage := Light
|}.

Definition deep_row : SleepRow := {|
  heartRate := 55; hrv := 45; movement := 0.05; bloodOxygen := 97;
  temperature := 36.5; breathingRate := 12; timeOfNight := 2;
  previousStage := Light; stage := Deep
|}.

(** A frame whose ten rows are all of class [Light]. *)
Definition light_only : DataFrame := pd_DataFrame (repeat light_row 10).

(** Ten thousand rows, half of class [Light] and half of class [Deep]. *)
Definition ten_thousand_rows : DataFrame :=
  pd_DataFrame (repeat light_row (Z.to_nat 5000) ++ repeat deep_row (Z.to_nat 5000)).

(** The metrics of the example of the specification (no ['f1']), and the
    same without ['precision']. *)
Definition example_metrics : gmap string Q :=
  <["accuracy" := 0.91%Q]> (<["precision" := 0.88%Q]> (<["recall" := 0.85%Q]> ∅)).

Definition metrics_without_precision : gmap string Q :=
  <["accuracy" := 0.91%Q]> (<["recall" := 0.85%Q]> ∅).

(** * Properties *)

(** ** Comparisons and clamps *)

Lemma Qltb_lt (x y : Q) : Qltb x y = true <-> (x < y)%Q.
Proof.
  unfold Qltb. rewrite negb_true_iff, <- not_true_iff_false, Qle_bool_iff.
  split; [apply Qnot_le_lt | apply Qlt_not_le].
Qed.

Lemma Qltb_ge (x y : Q) : Qltb x y = false <-> (y <= x)%Q.
Proof.
  unfold Qltb. rewrite negb_false_iff. apply Qle_bool_iff.
Qed.

Lemma py_min_le (hi x : Q) : (py_min hi x <= hi)%Q.
Proof.
  unfold py_min. destruct (Qltb x hi) eqn:E.
  - apply Qlt_le_weak, Qltb_lt, E.
  - apply Qle_refl.
Qed.

Lemma py_max_ge (lo x : Q) : (lo <= py_max lo x)%Q.
Proof.
  unfold py_max. destruct (Qltb lo x) eqn:E.
  - apply Qlt_le_weak, Qltb_lt, E.
  - apply Qle_refl.
Qed.

Lemma py_max_le (lo hi x : Q) : (lo <= hi)%Q -> (x <= hi)%Q -> (py_max lo x <= hi)%Q.
Proof.
  intros Hlh Hx. unfold py_max. destruct (Qltb lo x); assumption.
Qed.

(** [max(lo, min(hi, x))] lands in [lo, hi] whatever [x] is. *)
Lemma clamp_between (lo hi x : Q) :
  (lo <= hi)%Q -> (lo <= py_max lo (py_min hi x) <= hi)%Q.
Proof.
  intros Hlh. split.
  - apply py_max_ge.
  - apply py_max_le; [exact Hlh | apply py_min_le].
Qed.

(** ** The loop of the generator *)

Ltac draws :=
  repeat match goal with
         | |- context [let (_, _) := ?c in _] => destruct c eqn:?
         end.

Ltac phases t :=
  unfold phase_bucket, bind, ret;
  destruct (Qltb t 1) eqn:?;
  [| destruct (Qltb t 3) eqn:?;
     [| destruct (Qltb t 5) eqn:?]].

Section GeneratorFacts.

Variable R : np_random.RandomState.

Lemma sample_loop_app (k : nat) (data : list SleepRow) (g : np_random.state R) :
  sample_loop R k data g =
  (data ++ fst (sample_loop R k [] g), snd (sample_loop R k [] g)).
Proof.
  revert data g. induction k as [|k IH]; intros data g; simpl.
  - unfold ret. simpl. now rewrite app_nil_r.
  - unfold bind. destruct (sample_row R g) as [row g1].
    rewrite (IH (data ++ [row])), (IH ([] ++ [row])). simpl.
    now rewrite <- app_assoc.
Qed.

(** A property of every record drawn by the loop body holds of every row
    of the list the loop returns. *)
Lemma sample_loop_Forall (P : SleepRow -> Prop) :
  (forall g, P (fst (sample_row R g))) ->
  forall k data g, Forall P data -> Forall P (fst (sample_loop R k data g)).
Proof.
  intros Hrow. induction k as [|k IH]; intros data g Hdata; simpl.
  - exact Hdata.
  - unfold bind. destruct (sample_row R g) as [row g1] eqn:E.
    apply IH. apply Forall_app. split; [exact Hdata|].
    constructor; [| constructor].
    specialize (Hrow g). now rewrite E in Hrow.
Qed.

Lemma pd_DataFrame_Forall (P : SleepRow -> Prop) (data : list SleepRow) :
  Forall P data -> Forall (fun r => P (snd r)) (pd_DataFrame data).
Proof.
  intros H. apply Forall_forall. intros [i r] Hin.
  apply list_elem_of_In, in_combine_r in Hin.
  rewrite Forall_forall in H. now apply H, list_elem_of_In.
Qed.

Lemma generate_Forall (P : SleepRow -> Prop) :
  (forall g, P (fst (sample_row R g))) ->
  forall n g, Forall (fun r => P (snd r)) (fst (generate_synthetic_sleep_data R n g)).
Proof.
  intros Hrow n g. unfold generate_synthetic_sleep_data.
  destruct (sample_loop R (Z.to_nat n) [] (np_random.seed R 42)) as [data g'] eqn:E.
  simpl. apply pd_DataFrame_Forall.
  change data with (fst (data, g')). rewrite <- E.
  now apply sample_loop_Forall.
Qed.

End GeneratorFacts.

(** ** One record of the generator *)

Ltac draw :=
  match goal with
  | |- context [let (_, _) := ?c in _] =>
      lazymatch c with
      | context [let (_, _) := _ in _] => fail
      | _ => destruct c eqn:?
      end
  end.

Section RowFacts.

Variable R : np_random.RandomState.

Lemma sample_row_clamped (g : np_random.state R) :
  clamped (fst (sample_row R g)).
Proof.
  unfold sample_row, bind, ret.
  destruct (np_random.uniform R 0 8 g) as [t g1].
  phases t; draws; simpl.
  all: unfold clamped; simpl.
  all: repeat split;
    first [ apply py_min_le
          | apply Qle_trans with 1.0%Q; [ apply py_min_le | unfold Qle; simpl; lia ]
          | apply py_max_ge
          | apply py_max_le; [ unfold Qle; simpl; lia | apply py_min_le ] ].
Qed.

Lemma phase_bucket_stage (t : Q) (g : np_random.state R) :
  fst (fst (phase_bucket R t g)) =
  fst (np_random.choice R (fst (spec_stage_distribution t))
                          (snd (spec_stage_distribution t)) g).
Proof.
  unfold spec_stage_distribution, Awake, Light, Deep, REM.
  phases t; simpl; repeat draw; reflexivity.
Qed.

Lemma sample_row_stage (g : np_random.state R) :
  timeOfNight (fst (sample_row R g)) = fst (np_random.uniform R 0 8 g) /\
  stage (fst (sample_row R g)) =
    fst (fst (phase_bucket R (fst (np_random.uniform R 0 8 g))
                             (snd (np_random.uniform R 0 8 g)))).
Proof.
  unfold sample_row, bind, ret.
  destruct (np_random.uniform R 0 8 g) as [t g1]. simpl.
  destruct (phase_bucket R t g1) as [[st [[[[[a b] c] d] e] f]] g2].
  repeat draw. simpl. split; reflexivity.
Qed.

Lemma sample_row_previousStage (g : np_random.state R) :
  exists g' : np_random.state R,
    previousStage (fst (sample_row R g)) =
      if Qltb 0.3 (fst (np_random.random R g'))
      then (stage (fst (sample_row R g)) - 1) `mod` 4
      else stage (fst (sample_row R g)).
Proof.
  unfold sample_row, bind, ret.
  destruct (np_random.uniform R 0 8 g) as [t g1].
  destruct (phase_bucket R t g1) as [[st [[[[[a b] c] d] e] f]] g2].
  repeat draw. simpl.
  match goal with H : np_random.random R ?s = _ |- _ => exists s; rewrite H end.
  reflexivity.
Qed.

End RowFacts.

Section RowStages.

Variable R : np_random.RandomState.
Hypothesis choice_ok : np_random.choice_in_options R.

Lemma sample_row_stage_in_phase (g : np_random.state R) :
  stage_in_phase (fst (sample_row R g)).
Proof.
  destruct (sample_row_stage R g) as [Ht Hs].
  unfold stage_in_phase. rewrite Ht, Hs, phase_bucket_stage.
  set (t := fst (np_random.uniform R 0 8 g)).
  set (g1 := snd (np_random.uniform R 0 8 g)).
  unfold spec_stage_distribution.
  repeat split.
  - intros H1. apply Qltb_lt in H1. rewrite H1. cbn [fst snd]. now apply choice_ok.
  - intros [H1 H3]. apply Qltb_ge in H1. apply Qltb_lt in H3.
    rewrite H1, H3. cbn [fst snd]. now apply choice_ok.
  - intros [H3 H5]. apply Qltb_lt in H5. apply Qltb_ge in H3.
    assert (H1 : Qltb t 1 = false).
    { apply Qltb_ge. apply Qle_trans with 3%Q; [unfold Qle; simpl; lia | now apply Qltb_ge]. }
    rewrite H1, H3, H5. cbn [fst snd]. now apply choice_ok.
  - intros H5.
    assert (H5' : Qltb t 5 = false) by now apply Qltb_ge.
    assert (H3 : Qltb t 3 = false).
    { apply Qltb_ge. apply Qle_trans with 5%Q; [unfold Qle; simpl; lia | exact H5]. }
    assert (H1 : Qltb t 1 = false).
    { apply Qltb_ge. apply Qle_trans with 5%Q; [unfold Qle; simpl; lia | exact H5]. }
    rewrite H1, H3, H5'. cbn [fst snd]. now apply choice_ok.
Qed.

Lemma sample_row_stage_domain (g : np_random.state R) :
  0 <= stage (fst (sample_row R g)) <= 3.
Proof.
  destruct (sample_row_stage R g) as [_ Hs].
  rewrite Hs, phase_bucket_stage.
  set (t := fst (np_random.uniform R 0 8 g)).
  set (g1 := snd (np_random.uniform R 0 8 g)).
  assert (Hin : In (fst (np_random.choice R (fst (spec_stage_distribution t))
                                            (snd (spec_stage_distribution t)) g1))
                   (fst (spec_stage_distribution t))).
  { apply choice_ok. unfold spec_stage_distribution.
    destruct (Qltb t 1); [discriminate|].
    destruct (Qltb t 3); [discriminate|].
    destruct (Qltb t 5); discriminate. }
  revert Hin. unfold spec_stage_distribution, Awake, Light, Deep, REM.
  destruct (Qltb t 1); [|destruct (Qltb t 3); [|destruct (Qltb t 5)]];
    simpl; intros Hin; intuition lia.
Qed.

End RowStages.

(** ** The table as a whole *)

Lemma range_length (n : nat) : range (Z.of_nat n) = map Z.of_nat (seq 0 n).
Proof. unfold range. now rewrite Nat2Z.id. Qed.

Lemma combine_seq_lookup {A : Type} (data : list A) (a i : nat) :
  combine (map Z.of_nat (seq a (length data))) data !! i =
  (fun r => (Z.of_nat (a + i), r)) <$> data !! i.
Proof.
  revert a i. induction data as [|r data IH]; intros a i; simpl.
  - reflexivity.
  - destruct i as [|i]; simpl.
    + now rewrite Nat.add_0_r.
    + rewrite IH. now replace (S a + i)%nat with (a + S i)%nat by lia.
Qed.

(** Row [i] of [pd.DataFrame(data)] is record [i] under the label [i]. *)
Lemma pd_DataFrame_lookup (data : list SleepRow) (i : nat) :
  pd_DataFrame data !! i = (fun r => (Z.of_nat i, r)) <$> data !! i.
Proof.
  unfold pd_DataFrame. rewrite range_length. apply combine_seq_lookup.
Qed.

Lemma pd_DataFrame_length (data : list SleepRow) :
  length (pd_DataFrame data) = length data.
Proof.
  unfold pd_DataFrame. rewrite length_combine, range_length, length_map, length_seq.
  lia.
Qed.

Lemma pd_DataFrame_index (data : list SleepRow) :
  map fst (pd_DataFrame data) = range (Z.of_nat (length data)).
Proof.
  unfold pd_DataFrame. generalize (range_length (length data)).
  intros ->. generalize 0%nat.
  induction data as [|r data IH]; intros a; simpl; [reflexivity|].
  now rewrite IH.
Qed.

(** The default index has no repeated label. *)
Lemma pd_DataFrame_index_NoDup (data : list SleepRow) :
  NoDup (map fst (pd_DataFrame data)).
Proof.
  rewrite pd_DataFrame_index, range_length.
  apply NoDup_fmap_2; [intros x y; apply Nat2Z.inj | apply NoDup_seq].
Qed.

Section TableFacts.

Variable R : np_random.RandomState.

Lemma sample_loop_add (k j : nat) (data : list SleepRow) (g : np_random.state R) :
  sample_loop R (k + j) data g =
  sample_loop R j (fst (sample_loop R k data g)) (snd (sample_loop R k data g)).
Proof.
  revert data g. induction k as [|k IH]; intros data g; simpl.
  - reflexivity.
  - unfold bind. destruct (sample_row R g) as [row g1]. apply IH.
Qed.

Lemma sample_loop_length (k : nat) (data : list SleepRow) (g : np_random.state R) :
  length (fst (sample_loop R k data g)) = (length data + k)%nat.
Proof.
  revert data g. induction k as [|k IH]; intros data g; simpl.
  - unfold ret. simpl. lia.
  - unfold bind. destruct (sample_row R g) as [row g1].
    rewrite IH, length_app. simpl. lia.
Qed.

(** A longer run starts with the rows of a shorter one. *)
Lemma sample_loop_prefix (k k' : nat) (g : np_random.state R) :
  (k <= k')%nat ->
  exists rest, fst (sample_loop R k' [] g) = fst (sample_loop R k [] g) ++ rest.
Proof.
  intros Hle. replace k' with (k + (k' - k))%nat by lia.
  rewrite sample_loop_add, sample_loop_app. simpl. eauto.
Qed.

(** Every row of the table satisfies what every record of the loop body
    satisfies; the generated frame has [n_samples] rows. *)
Lemma generate_length (n : Z) (g : np_random.state R) :
  length (fst (generate_synthetic_sleep_data R n g)) = Z.to_nat n.
Proof.
  unfold generate_synthetic_sleep_data.
  destruct (sample_loop R (Z.to_nat n) [] (np_random.seed R 42)) as [data g'] eqn:E.
  simpl. rewrite pd_DataFrame_length.
  change data with (fst (data, g')). rewrite <- E, sample_loop_length. reflexivity.
Qed.

Lemma generate_rows_clamped (n : Z) (g : np_random.state R) :
  Forall (fun r => clamped (snd r)) (fst (generate_synthetic_sleep_data R n g)).
Proof. apply generate_Forall. apply sample_row_clamped. Qed.

End TableFacts.

(** ** Claims about the generator *)

(** C1.  The clamp of [movement] has no lower bound: on the variates
    [negative_movement_draws] the only row of the table has a movement
    below 0, outside the range [0, 1] stated for the field. *)
Theorem movement_below_zero :
  exists row : SleepRow,
    fst (generate_synthetic_sleep_data (Tape.replay negative_movement_draws) 1 [])
      = [(0, row)]
    /\ (movement row < 0)%Q.
Proof.
  eexists. split.
  - vm_compute. reflexivity.
  - vm_compute. reflexivity.
Qed.

(** C3.  Generation is deterministic.  Whatever the state of the global
    generator at the call, the call returns the same table and leaves the
    same state, so a second run reproduces the first; and row [i] is the
    same in every run that is long enough to have it. *)
Theorem generation_deterministic (R : np_random.RandomState) (n : Z)
    (g1 g2 : np_random.state R) :
  generate_synthetic_sleep_data R n g1 = generate_synthetic_sleep_data R n g2
  /\ generate_synthetic_sleep_data R n (snd (generate_synthetic_sleep_data R n g1))
     = generate_synthetic_sleep_data R n g1
  /\ forall (m : Z) (i : nat) (row : Z * SleepRow),
       n <= m ->
       fst (generate_synthetic_sleep_data R n g1) !! i = Some row ->
       fst (generate_synthetic_sleep_data R m g2) !! i = Some row.
Proof.
  split; [reflexivity|]. split; [reflexivity|].
  intros m i row Hle. unfold generate_synthetic_sleep_data.
  destruct (sample_loop_prefix R (Z.to_nat n) (Z.to_nat m) (np_random.seed R 42))
    as [rest Hrest]; [lia|].
  destruct (sample_loop R (Z.to_nat n) [] (np_random.seed R 42)) as [dn gn].
  destruct (sample_loop R (Z.to_nat m) [] (np_random.seed R 42)) as [dm gm].
  simpl in *. subst dm. rewrite !pd_DataFrame_lookup.
  destruct (dn !! i) as [r|] eqn:E; simpl; [|discriminate].
  intros <-. now rewrite (lookup_app_l_Some _ _ _ _ E).
Qed.

(** C4.  In every generated row the stage is the draw of [choice] on the
    classes and weights of the phase selected by [timeOfNight] alone, and
    therefore one of the classes of that phase. *)
Theorem stage_drawn_from_phase (R : np_random.RandomState)
    (choice_ok : np_random.choice_in_options R) (n : Z) (g : np_random.state R) :
  Forall (fun r : Z * SleepRow =>
            stage_in_phase (snd r) /\
            exists g' : np_random.state R,
              stage (snd r) =
              fst (np_random.choice R
                     (fst (spec_stage_distribution (timeOfNight (snd r))))
                     (snd (spec_stage_distribution (timeOfNight (snd r)))) g'))
         (fst (generate_synthetic_sleep_data R n g)).
Proof.
  apply generate_Forall with
    (P := fun r => stage_in_phase r /\
                   exists g', stage r =
                     fst (np_random.choice R
                            (fst (spec_stage_distribution (timeOfNight r)))
                            (snd (spec_stage_distribution (timeOfNight r))) g')).
  intros g0. split.
  - now apply sample_row_stage_in_phase.
  - destruct (sample_row_stage R g0) as [Ht Hs].
    exists (snd (np_random.uniform R 0 8 g0)).
    rewrite Ht, Hs. apply phase_bucket_stage.
Qed.

(** *** The share of the uniform variates above 0.3 *)

Lemma filter_map_length {A B : Type} (f : B -> bool) (h : A -> B) (l : list A) :
  length (List.filter f (map h l)) = length (List.filter (fun x => f (h x)) l).
Proof.
  induction l as [|x l IH]; simpl; [reflexivity|].
  destruct (f (h x)); simpl; now rewrite IH.
Qed.

Lemma count_above (c n : nat) :
  length (List.filter (fun k => (c <? k)%nat) (seq 0 n)) = (n - S c)%nat.
Proof.
  induction n as [|n IH]; [reflexivity|].
  rewrite seq_S, List.filter_app, length_app, IH. simpl.
  destruct (c <? n)%nat eqn:E; simpl.
  - apply Nat.ltb_lt in E. lia.
  - apply Nat.ltb_ge in E. lia.
Qed.

Lemma above_threshold_grid (N k : nat) :
  (0 < N)%nat ->
  Qltb 0.3 (inject_Z (Z.of_nat k) / inject_Z (Z.of_nat N)) = (3 * N / 10 <? k)%nat.
Proof.
  intros HN.
  assert (Hdiv : (10 * (3 * N / 10) <= 3 * N < 10 * (3 * N / 10) + 10)%nat).
  { pose proof (Nat.div_mod (3 * N) 10 ltac:(lia)).
    pose proof (Nat.mod_upper_bound (3 * N) 10 ltac:(lia)). lia. }
  destruct (3 * N / 10 <? k)%nat eqn:E.
  - apply Nat.ltb_lt in E. apply Qltb_lt.
    apply Qlt_shift_div_l.
    + change 0%Q with (inject_Z 0). rewrite <- Zlt_Qlt. lia.
    + unfold Qlt. simpl. lia.
  - apply Nat.ltb_ge in E. apply Qltb_ge.
    apply Qle_shift_div_r.
    + change 0%Q with (inject_Z 0). rewrite <- Zlt_Qlt. lia.
    + unfold Qle. simpl. lia.
Qed.

(** Of the [N] values of the grid, the share above 0.3 is 0.7 up to one
    grid point. *)
Lemma share_above_threshold (N : nat) :
  (0 < N)%nat ->
  7 * Z.of_nat N - 10
    <= 10 * Z.of_nat (length (List.filter (Qltb 0.3) (uniform_grid N)))
    <= 7 * Z.of_nat N.
Proof.
  intros HN. unfold uniform_grid.
  rewrite filter_map_length.
  rewrite (List.filter_ext _ (fun k => (3 * N / 10 <? k)%nat)).
  2: { intros k. now apply above_threshold_grid. }
  rewrite count_above.
  pose proof (Nat.div_mod (3 * N) 10 ltac:(lia)).
  pose proof (Nat.mod_upper_bound (3 * N) 10 ltac:(lia)).
  lia.
Qed.

(** C5.  In every generated row the previous stage is [(stage - 1) mod 4]
    when the uniform variate drawn for it exceeds 0.3 and is the stage
    otherwise; it is therefore one of the two and a class code in 0..3.
    The variates above 0.3 are a share 0.7 of the uniform grid, up to one
    grid point. *)
Theorem previous_stage_from_stage (R : np_random.RandomState)
    (choice_ok : np_random.choice_in_options R) (n : Z) (g : np_random.state R) :
  Forall (fun r : Z * SleepRow =>
            (previousStage (snd r) = (stage (snd r) - 1) `mod` 4
             \/ previousStage (snd r) = stage (snd r))
            /\ 0 <= previousStage (snd r) <= 3
            /\ exists g' : np_random.state R,
                 previousStage (snd r) =
                 if Qltb 0.3 (fst (np_random.random R g'))
                 then (stage (snd r) - 1) `mod` 4
                 else stage (snd r))
         (fst (generate_synthetic_sleep_data R n g))
  /\ forall N : nat,
       (0 < N)%nat ->
       7 * Z.of_nat N - 10
         <= 10 * Z.of_nat (length (List.filter (Qltb 0.3) (uniform_grid N)))
         <= 7 * Z.of_nat N.
Proof.
  split; [| exact share_above_threshold].
  apply generate_Forall with
    (P := fun r =>
            (previousStage r = (stage r - 1) `mod` 4 \/ previousStage r = stage r)
            /\ 0 <= previousStage r <= 3
            /\ exists g' : np_random.state R,
                 previousStage r =
                 if Qltb 0.3 (fst (np_random.random R g'))
                 then (stage r - 1) `mod` 4 else stage r).
  intros g0.
  destruct (sample_row_previousStage R g0) as [g' Hp].
  pose proof (sample_row_stage_domain R choice_ok g0) as Hs.
  pose proof (Z.mod_pos_bound (stage (fst (sample_row R g0)) - 1) 4 ltac:(lia)) as Hm.
  repeat split; try (exists g'; exact Hp);
    rewrite Hp; destruct (Qltb 0.3 (fst (np_random.random R g'))); auto; lia.
Qed.

(** ** Positional indexing *)

Lemma mapM_Permutation {A B : Type} (f : A -> option B) (l1 l2 : list A) :
  Permutation l1 l2 ->
  forall k1, mapM f l1 = Some k1 ->
  exists k2, mapM f l2 = Some k2 /\ Permutation k1 k2.
Proof.
  induction 1 as [|x l l' _ IH|x y l|l l' l'' _ IH1 _ IH2]; intros k1 Hk1.
  - exists k1. split; [exact Hk1 | reflexivity].
  - simpl in *. destruct (f x) as [b|]; [|discriminate]. simpl in *.
    destruct (mapM f l) as [k|]; [|discriminate]. simpl in Hk1.
    injection Hk1 as <-. destruct (IH k eq_refl) as (k2 & -> & Hp).
    simpl. exists (b :: k2). split; [reflexivity | now constructor].
  - simpl in *. destruct (f y) as [b|]; [|discriminate]. simpl in *.
    destruct (f x) as [c|]; [|discriminate]. simpl in *.
    destruct (mapM f l) as [k|]; [|discriminate]. simpl in *.
    injection Hk1 as <-. exists (c :: b :: k). split; [reflexivity | constructor].
  - destruct (IH1 _ Hk1) as (k2 & Hk2 & Hp12).
    destruct (IH2 _ Hk2) as (k3 & Hk3 & Hp23).
    exists k3. split; [exact Hk3 | now transitivity k2].
Qed.

Lemma mapM_app_Some {A B : Type} (f : A -> option B) (l1 l2 : list A) (k : list B) :
  mapM f (l1 ++ l2) = Some k ->
  exists k1 k2, k = k1 ++ k2 /\ mapM f l1 = Some k1 /\ mapM f l2 = Some k2.
Proof.
  intros H. apply mapM_Some_1, Forall2_app_inv_l in H.
  destruct H as (k1 & k2 & H1 & H2 & ->).
  exists k1, k2. repeat split; now apply mapM_Some_2.
Qed.

Lemma lookup_all_positions {A : Type} (pre a : list A) :
  Forall2 (fun i x => (pre ++ a) !! i = Some x) (seq (length pre) (length a)) a.
Proof.
  revert pre. induction a as [|x a IH]; intros pre; simpl; constructor.
  - apply list_lookup_middle. reflexivity.
  - specialize (IH (pre ++ [x])).
    rewrite length_app, <- app_assoc in IH. simpl in IH.
    now rewrite Nat.add_1_r in IH.
Qed.

(** Indexing at 0 .. n-1 gives the rows back. *)
Lemma mapM_lookup_seq {A : Type} (a : list A) :
  mapM (fun i => a !! i) (seq 0 (length a)) = Some a.
Proof. apply mapM_Some_2, (lookup_all_positions [] a). Qed.

Lemma mapM_lookup_fmap {A B : Type} (h : A -> B) (a : list A) (idx : list nat) :
  mapM (fun i => (map h a) !! i) idx = map h <$> mapM (fun i => a !! i) idx.
Proof.
  induction idx as [|i idx IH]; simpl; [reflexivity|].
  change (map h a !! i) with ((h <$> a) !! i).
  rewrite list_lookup_fmap, IH.
  destruct (a !! i); simpl; [|reflexivity].
  destruct (mapM (fun i => a !! i) idx); reflexivity.
Qed.

Lemma mapM_length {A B : Type} (f : A -> option B) (l : list A) (k : list B) :
  mapM f l = Some k -> length k = length l.
Proof. intros H. apply mapM_Some_1, Forall2_length in H. now symmetry. Qed.

(** Positions that together enumerate 0 .. n-1 select, together, a
    rearrangement of all the rows. *)
Lemma partition_positions_rows {A : Type} (a : list A) (tr te : list nat) :
  Permutation (tr ++ te) (seq 0 (length a)) ->
  exists rows_tr rows_te,
    mapM (fun i => a !! i) tr = Some rows_tr /\
    mapM (fun i => a !! i) te = Some rows_te /\
    Permutation (rows_tr ++ rows_te) a.
Proof.
  intros Hp. symmetry in Hp.
  destruct (mapM_Permutation _ _ _ Hp a (mapM_lookup_seq a)) as (k & Hk & Hpk).
  destruct (mapM_app_Some _ _ _ _ Hk) as (k1 & k2 & -> & H1 & H2).
  exists k1, k2. repeat split; [exact H1 | exact H2 | now symmetry].
Qed.

(** ** The splitter *)

Lemma ceiling_fifth (n : Z) :
  n <= 5 * Qceiling (0.2 * inject_Z n) < n + 5.
Proof.
  unfold Qceiling, Qfloor, Qmult, Qopp, inject_Z. simpl.
  change (Z.pos (10 * 1)) with 10.
  pose proof (Z.div_mod (- (2 * n)) 10 ltac:(lia)).
  pose proof (Z.mod_pos_bound (- (2 * n)) 10 ltac:(lia)).
  lia.
Qed.

Lemma validate_shuffle_split_fifth (n n_train n_test : Z) :
  0 <= n ->
  sklearn.validate_shuffle_split n 0.2 = Ok (n_train, n_test) ->
  n_test = Qceiling (0.2 * inject_Z n) /\ n_train = n - n_test /\
  0 < n_train /\ 0 <= n_test.
Proof.
  intros Hn. unfold sklearn.validate_shuffle_split.
  change (Qle_bool 0.2 0 || Qle_bool 1 0.2) with false. cbv iota.
  pose proof (ceiling_fifth n) as Hc.
  destruct (n - Qceiling (0.2 * inject_Z n) =? 0) eqn:E; [discriminate|].
  apply Z.eqb_neq in E. intros [= <- <-]. lia.
Qed.

Lemma stratified_shuffle_split_Ok (S : sklearn.Shuffle) (y : list Z)
    (n_train n_test : Z) (split : list nat * list nat) :
  sklearn.stratified_shuffle_split S y n_train n_test = Ok split ->
  split = sklearn.positions S y (Z.to_nat n_train) (Z.to_nat n_test).
Proof.
  unfold sklearn.stratified_shuffle_split.
  destruct (existsb _ _); [discriminate|].
  destruct (n_train <? _); [discriminate|].
  destruct (n_test <? _); [discriminate|].
  now intros [= <-].
Qed.

Lemma safe_indexing_Ok {A : Type} (a : list A) (idx : list nat) (rows : list A) :
  sklearn.safe_indexing a idx = Ok rows <-> mapM (fun i => a !! i) idx = Some rows.
Proof.
  unfold sklearn.safe_indexing.
  destruct (mapM (fun i => a !! i) idx); split; congruence.
Qed.

(** Putting the stage column back on the feature rows of the same rows
    restores the rows. *)
Lemma set_stage_restores (rows : DataFrame) :
  set_stage (map (fun r => (fst r, feature_columns (snd r))) rows)
            (map (fun r => (fst r, stage (snd r))) rows) = rows.
Proof.
  unfold set_stage. induction rows as [|[i r] rows IH]; simpl; [reflexivity|].
  rewrite IH. destruct r; reflexivity.
Qed.

Section SplitterFacts.

Variable S : sklearn.Shuffle.

(** On a frame with rows the feature columns are there, and the call is
    the split of the two selections. *)
Lemma create_ml_training_data_rows (df : DataFrame) :
  df <> [] ->
  create_ml_training_data S df =
  (parts <~ sklearn.train_test_split S
              (map (fun r => (fst r, feature_columns (snd r))) df)
              (map (fun r => (fst r, stage (snd r))) df) 0.2
              (map snd (map (fun r => (fst r, stage (snd r))) df)) ;;
   let '(X_train, X_test, y_train, y_test) := parts in
   Ok (set_stage X_train y_train, set_stage X_test y_test)).
Proof.
  intros Hne. destruct df as [|r df]; [congruence | reflexivity].
Qed.

(** The frame without rows has no columns either. *)
Lemma create_ml_training_data_no_rows :
  exists key, create_ml_training_data S [] = Raise (KeyError key).
Proof. unfold create_ml_training_data. simpl. eauto. Qed.

(** What a successful call has computed: the sizes, the positions chosen
    by the shuffle, and the two frames as the rows at these positions. *)
Lemma create_ml_training_data_Ok (df train test : DataFrame) :
  create_ml_training_data S df = Ok (train, test) ->
  exists (n_train n_test : Z) (tr te : list nat),
    sklearn.validate_shuffle_split (Z.of_nat (length df)) 0.2 = Ok (n_train, n_test) /\
    sklearn.stratified_shuffle_split S (stages df) n_train n_test = Ok (tr, te) /\
    mapM (fun i => df !! i) tr = Some train /\
    mapM (fun i => df !! i) te = Some test.
Proof.
  intros Hok.
  assert (Hne : df <> []) by (intros ->; discriminate Hok).
  revert Hok. rewrite (create_ml_training_data_rows df Hne).
  unfold sklearn.train_test_split.
  rewrite !length_map, Nat.eqb_refl, map_map. cbn [negb snd].
  fold (stages df).
  destruct (sklearn.validate_shuffle_split _ _) as [[n_train n_test]|e] eqn:Ev;
    [|discriminate].
  cbn [and_then fst snd].
  destruct (sklearn.stratified_shuffle_split _ _ _ _) as [[tr te]|e] eqn:Es;
    [|discriminate].
  cbn [and_then fst snd].
  unfold sklearn.safe_indexing. rewrite !mapM_lookup_fmap.
  destruct (mapM (fun i => df !! i) tr) as [rows_tr|] eqn:Etr; [|discriminate].
  destruct (mapM (fun i => df !! i) te) as [rows_te|] eqn:Ete; [|discriminate].
  cbn. rewrite !set_stage_restores. intros [= <- <-].
  exists n_train, n_test, tr, te. repeat split; assumption.
Qed.

(** The feature frame and the stage column that come out of
    [train_test_split] carry the same index, the case in which
    [set_stage] is what pandas does. *)
Lemma split_parts_share_index (df : DataFrame)
    (X_train X_test : list (Z * FeatureRow)) (y_train y_test : list (Z * Z)) :
  sklearn.train_test_split S
    (map (fun r => (fst r, feature_columns (snd r))) df)
    (map (fun r => (fst r, stage (snd r))) df) 0.2 (stages df)
    = Ok (X_train, X_test, y_train, y_test) ->
  map fst X_train = map fst y_train /\ map fst X_test = map fst y_test.
Proof.
  unfold sklearn.train_test_split.
  rewrite !length_map, Nat.eqb_refl. cbn [negb].
  destruct (sklearn.validate_shuffle_split _ _) as [sizes|e]; [|discriminate].
  cbn [and_then].
  destruct (sklearn.stratified_shuffle_split _ _ _ _) as [split|e]; [|discriminate].
  cbn [and_then].
  unfold sklearn.safe_indexing. rewrite !mapM_lookup_fmap.
  destruct (mapM (fun i => df !! i) (fst split)) as [rows_tr|]; [|discriminate].
  destruct (mapM (fun i => df !! i) (snd split)) as [rows_te|]; [|discriminate].
  cbn. intros [= <- <- <- <-]. rewrite !map_map. split; reflexivity.
Qed.

End SplitterFacts.

Section SplitterClaims.

Variable S : sklearn.Shuffle.

Lemma stages_length (df : DataFrame) : length (stages df) = length df.
Proof. unfold stages. apply length_map. Qed.

(** A class with fewer than two members stops the stratified split. *)
Lemma stratified_shuffle_split_small_class (y : list Z) (n_train n_test c : Z) :
  In c y -> (count_occ Z.eq_dec y c < 2)%nat ->
  exists msg, sklearn.stratified_shuffle_split S y n_train n_test = Raise (ValueError msg).
Proof.
  intros Hin Hc. unfold sklearn.stratified_shuffle_split.
  replace (existsb _ _) with true; [eauto|].
  symmetry. apply existsb_exists.
  exists (count_occ Z.eq_dec y c). split.
  - apply in_map, nodup_In, Hin.
  - now apply Nat.ltb_lt.
Qed.

(** With the checks passed, the shuffle decides and the call succeeds. *)
Lemma create_ml_training_data_succeeds (df : DataFrame) (n_train n_test : Z) :
  sklearn.partitions S ->
  sklearn.validate_shuffle_split (Z.of_nat (length df)) 0.2 = Ok (n_train, n_test) ->
  Forall (fun c => (2 <= class_count df c)%nat) (classes df) ->
  Z.of_nat (length (classes df)) <= n_train ->
  Z.of_nat (length (classes df)) <= n_test ->
  exists train test,
    create_ml_training_data S df = Ok (train, test) /\
    Z.of_nat (length train) = n_train /\ Z.of_nat (length test) = n_test.
Proof.
  intros HS Hv Hmin Htr Hte.
  destruct (validate_shuffle_split_fifth _ _ _ (Nat2Z.is_nonneg _) Hv)
    as (Ht & Hn & Hpos & Hnn).
  destruct (HS (stages df) (Z.to_nat n_train) (Z.to_nat n_test)) as (Hp & Hl1 & Hl2).
  { rewrite stages_length. lia. }
  rewrite stages_length in Hp.
  destruct (partition_positions_rows df _ _ Hp) as (train & test & Htrain & Htest & _).
  exists train, test.
  assert (Hne : df <> []) by (intros ->; simpl in *; lia).
  rewrite (create_ml_training_data_rows S df Hne).
  unfold sklearn.train_test_split.
  rewrite !length_map, Nat.eqb_refl, map_map. cbn [negb snd].
  fold (stages df). rewrite Hv. cbn [and_then fst snd].
  unfold sklearn.stratified_shuffle_split.
  fold (classes df).
  replace (existsb _ _) with false.
  2: { symmetry. apply not_true_is_false. intros He.
       apply existsb_exists in He. destruct He as (k & Hk & Hlt).
       apply in_map_iff in Hk. destruct Hk as (c & <- & Hc).
       rewrite List.Forall_forall in Hmin. specialize (Hmin c Hc).
       apply Nat.ltb_lt in Hlt. unfold class_count in Hmin. lia. }
  replace (n_train <? _) with false by (symmetry; apply Z.ltb_ge; exact Htr).
  replace (n_test <? _) with false by (symmetry; apply Z.ltb_ge; exact Hte).
  cbn [and_then fst snd].
  unfold sklearn.safe_indexing. rewrite !mapM_lookup_fmap, Htrain, Htest.
  cbn. rewrite !set_stage_restores. split; [reflexivity|].
  apply mapM_length in Htrain, Htest. lia.
Qed.

End SplitterClaims.

Lemma classes_few (df : DataFrame) :
  Forall (fun c => 0 <= c <= 3) (stages df) -> (length (classes df) <= 4)%nat.
Proof.
  intros Hdom.
  change 4%nat with (length [Awake; Light; Deep; REM]).
  apply NoDup_incl_length; [apply NoDup_nodup|].
  intros c Hc. apply nodup_In in Hc.
  rewrite List.Forall_forall in Hdom. specialize (Hdom c Hc).
  unfold Awake, Light, Deep, REM. simpl. lia.
Qed.

(** ** Claims about the splitter *)

(** C2.  When the splitter returns, the train and test frames together
    are a rearrangement of the input frame (no row dropped, none added),
    and with the labels of the input index distinct no row is in both. *)
Theorem split_is_partition (S : sklearn.Shuffle) (df train test : DataFrame) :
  sklearn.partitions S ->
  create_ml_training_data S df = Ok (train, test) ->
  Permutation (train ++ test) df
  /\ (NoDup (map fst df) -> forall r, In r train -> ~ In r test).
Proof.
  intros HS Hok.
  destruct (create_ml_training_data_Ok S df train test Hok)
    as (n_train & n_test & tr & te & Hv & Hs & Htr & Hte).
  destruct (validate_shuffle_split_fifth _ _ _ (Nat2Z.is_nonneg _) Hv)
    as (Ht & Hn & Hpos & Hnn).
  apply stratified_shuffle_split_Ok in Hs.
  destruct (HS (stages df) (Z.to_nat n_train) (Z.to_nat n_test)) as (Hp & _).
  { rewrite stages_length. lia. }
  rewrite <- Hs, stages_length in Hp. simpl in Hp.
  destruct (partition_positions_rows df tr te Hp) as (k1 & k2 & H1 & H2 & Hperm).
  assert (k1 = train) by congruence. assert (k2 = test) by congruence. subst k1 k2.
  split; [exact Hperm|].
  intros Hnd r Hin1 Hin2.
  assert (Hdf : NoDup df) by (apply (NoDup_fmap_1 fst); exact Hnd).
  rewrite <- Hperm in Hdf. apply NoDup_app in Hdf.
  destruct Hdf as (_ & Hdisj & _).
  apply (Hdisj r); now apply list_elem_of_In.
Qed.

(** C6.  A frame in which some class has fewer than two members is
    refused with an error, the [ValueError] of the stratified split, and
    no train or test frame is returned. *)
Theorem one_member_class_raises (S : sklearn.Shuffle) (df : DataFrame) (c : Z) :
  In c (classes df) -> (class_count df c < 2)%nat ->
  (exists msg, create_ml_training_data S df = Raise (ValueError msg))
  /\ forall train test, create_ml_training_data S df <> Ok (train, test).
Proof.
  intros Hin Hc.
  assert (Hne : df <> []) by (intros ->; exact Hin).
  assert (H : exists msg, create_ml_training_data S df = Raise (ValueError msg)).
  { rewrite (create_ml_training_data_rows S df Hne).
    unfold sklearn.train_test_split.
    rewrite !length_map, Nat.eqb_refl, map_map. cbn [negb snd].
    fold (stages df).
    unfold sklearn.validate_shuffle_split.
    change (Qle_bool 0.2 0 || Qle_bool 1 0.2) with false. cbv iota.
    destruct (_ =? 0); [cbn; eauto|]. cbn [and_then fst snd].
    apply nodup_In in Hin.
    destruct (stratified_shuffle_split_small_class S (stages df)
                (Z.of_nat (length df) - Qceiling (0.2 * inject_Z (Z.of_nat (length df))))
                (Qceiling (0.2 * inject_Z (Z.of_nat (length df)))) c Hin Hc)
      as [msg ->].
    cbn. eauto. }
  split; [exact H|].
  destruct H as [msg ->]. discriminate.
Qed.

(** C9.  On a frame of 10000 rows the split has exactly 8000 train rows
    and 2000 test rows whenever it returns, and it does return when the
    classes are stage codes with at least two members each. *)
Theorem split_of_10000 (S : sklearn.Shuffle) (df : DataFrame) :
  sklearn.partitions S ->
  Z.of_nat (length df) = 10000 ->
  (forall train test,
     create_ml_training_data S df = Ok (train, test) ->
     Z.of_nat (length train) = 8000 /\ Z.of_nat (length test) = 2000)
  /\ (Forall (fun c => 0 <= c <= 3) (stages df) ->
      Forall (fun c => (2 <= class_count df c)%nat) (classes df) ->
      exists train test,
        create_ml_training_data S df = Ok (train, test) /\
        Z.of_nat (length train) = 8000 /\ Z.of_nat (length test) = 2000).
Proof.
  intros HS Hlen.
  assert (Hv : sklearn.validate_shuffle_split (Z.of_nat (length df)) 0.2
               = Ok (8000, 2000)) by (rewrite Hlen; reflexivity).
  split.
  - intros train test Hok.
    destruct (create_ml_training_data_Ok S df train test Hok)
      as (n_train & n_test & tr & te & Hv' & Hs & Htr & Hte).
    rewrite Hv in Hv'. injection Hv' as <- <-.
    apply stratified_shuffle_split_Ok in Hs.
    destruct (HS (stages df) (Z.to_nat 8000) (Z.to_nat 2000)) as (_ & Hl1 & Hl2).
    { rewrite stages_length. lia. }
    rewrite <- Hs in Hl1, Hl2. simpl in Hl1, Hl2.
    apply mapM_length in Htr, Hte. lia.
  - intros Hdom Hmin.
    pose proof (classes_few df Hdom) as Hfew.
    apply create_ml_training_data_succeeds; try assumption; lia.
Qed.

(** ** Claims about the metadata composer *)

Lemma getitem_Ok (d : gmap string Q) (key : string) (v : Q) :
  d !! key = Some v -> getitem d key = Ok v.
Proof. unfold getitem. now intros ->. Qed.

Lemma getitem_Raise (d : gmap string Q) (key : string) :
  d !! key = None -> getitem d key = Raise (KeyError key).
Proof. unfold getitem. now intros ->. Qed.

(** C7.  With accuracy, precision and recall supplied the composer
    returns a record whose [f1_score] is 0.0 when the metrics have no
    ['f1'] entry and is the ['f1'] entry when they have one. *)
Theorem f1_score_default (m : gmap string Q) (acc prec rec : Q) :
  m !! "accuracy" = Some acc ->
  m !! "precision" = Some prec ->
  m !! "recall" = Some rec ->
  exists md : Metadata,
    create_model_metadata m = Ok md
    /\ (m !! "f1" = None -> f1_score (performance_metrics md) = 0.0%Q)
    /\ (forall v, m !! "f1" = Some v -> f1_score (performance_metrics md) = v).
Proof.
  intros Ha Hp Hr. unfold create_model_metadata.
  rewrite (getitem_Ok _ _ _ Ha), (getitem_Ok _ _ _ Hp), (getitem_Ok _ _ _ Hr).
  cbn [and_then]. eexists. split; [reflexivity|].
  cbn [performance_metrics f1_score]. unfold get.
  split.
  - now intros ->.
  - now intros v ->.
Qed.

(** C8.  Whatever the values of the metrics, the record returned carries
    the fixed feature schema and training configuration. *)
Theorem metadata_constants (m : gmap string Q) (acc prec rec : Q) :
  m !! "accuracy" = Some acc ->
  m !! "precision" = Some prec ->
  m !! "recall" = Some rec ->
  exists md : Metadata,
    create_model_metadata m = Ok md
    /\ input_features (features md) =
         [ "heartRate"; "hrv"; "movement"; "bloodOxygen";
           "temperature"; "breathingRate"; "timeOfNight"; "previousStage" ]
    /\ length (input_features (features md)) = 8%nat
    /\ output_classes (features md) = [ "awake"; "light"; "deep"; "rem" ]
    /\ map fst (feature_descriptions (features md)) = input_features (features md)
    /\ architecture (training_info md) = "64-32-4 (ReLU activation)"
    /\ training_samples (training_info md) = 8000
    /\ validation_samples (training_info md) = 2000
    /\ epochs (training_info md) = 100
    /\ batch_size (training_info md) = 32
    /\ learning_rate (training_info md) = 0.001%Q
    /\ name (model_info md) = "SleepStagePredictor"
    /\ version (model_info md) = "1.0".
Proof.
  intros Ha Hp Hr. unfold create_model_metadata.
  rewrite (getitem_Ok _ _ _ Ha), (getitem_Ok _ _ _ Hp), (getitem_Ok _ _ _ Hr).
  cbn [and_then]. eexists. split; [reflexivity|].
  repeat split.
Qed.

(** C10.  A metrics dict without ['accuracy'], ['precision'] or
    ['recall'] makes the composer raise [KeyError] on a missing one of
    the three and return no record; with the three present a record is
    returned whether or not ['f1'] is. *)
Theorem required_metrics (m : gmap string Q) :
  ((m !! "accuracy" = None \/ m !! "precision" = None \/ m !! "recall" = None) ->
   (exists key, create_model_metadata m = Raise (KeyError key)
                /\ In key ["accuracy"; "precision"; "recall"]
                /\ m !! key = None)
   /\ forall md, create_model_metadata m <> Ok md)
  /\ (is_Some (m !! "accuracy") -> is_Some (m !! "precision") ->
      is_Some (m !! "recall") ->
      exists md, create_model_metadata m = Ok md).
Proof.
  split.
  - intros Hmiss.
    assert (H : exists key, create_model_metadata m = Raise (KeyError key)
                            /\ In key ["accuracy"; "precision"; "recall"]
                            /\ m !! key = None).
    { unfold create_model_metadata, getitem.
      destruct (m !! "accuracy") as [a|] eqn:Ea.
      2: { exists "accuracy". simpl. auto. }
      destruct (m !! "precision") as [p|] eqn:Ep.
      2: { exists "precision". simpl. auto. }
      destruct (m !! "recall") as [r|] eqn:Er.
      2: { exists "recall". simpl. auto 6. }
      destruct Hmiss as [?|[?|?]]; discriminate. }
    split; [exact H|].
    destruct H as (key & -> & _). discriminate.
  - intros [a Ha] [p Hp] [r Hr]. unfold create_model_metadata.
    rewrite (getitem_Ok _ _ _ Ha), (getitem_Ok _ _ _ Hp), (getitem_Ok _ _ _ Hr).
    cbn [and_then]. eauto.
Qed.

(** ** The two library instances meet their laws *)

Lemma pick_in (a : list Z) (p : list Q) (u : Q) :
  a <> [] -> In (Tape.pick a p u) a.
Proof.
  revert p u. induction a as [|x a IH]; intros p u Hne; [congruence|].
  destruct a as [|x' a].
  - simpl. auto.
  - destruct p as [|q p].
    + simpl. auto.
    + change (Tape.pick (x :: x' :: a) (q :: p) u)
        with (if Qltb u q then x else Tape.pick (x' :: a) p (u - q)%Q).
      destruct (Qltb u q).
      * simpl. auto.
      * right. apply IH. discriminate.
Qed.

Lemma replay_choice_in_options (draws : list Q) :
  np_random.choice_in_options (Tape.replay draws).
Proof.
  intros a p g Hne. simpl. unfold bind, ret.
  destruct (Tape.pop g) as [u g']. simpl. now apply pick_in.
Qed.

Lemma in_order_partitions : sklearn.partitions sklearn.in_order.
Proof.
  intros y n_train n_test Hsum. simpl.
  rewrite !length_seq. repeat split.
  rewrite <- Hsum. now rewrite seq_app.
Qed.

(** ** The claims at concrete inputs *)

Lemma generation_deterministic_witness :
  exists row : Z * SleepRow,
    fst (generate_synthetic_sleep_data (Tape.replay negative_movement_draws) 1 [])
      !! 0%nat = Some row
    /\ fst (generate_synthetic_sleep_data (Tape.replay negative_movement_draws) 2 [1%Q])
         !! 0%nat = Some row.
Proof.
  eexists. split.
  - vm_compute. reflexivity.
  - apply (proj2 (proj2 (generation_deterministic
                           (Tape.replay negative_movement_draws) 1 [] [1%Q]))
             2 0%nat).
    + lia.
    + vm_compute. reflexivity.
Defined.

Lemma stage_drawn_from_phase_witness :
  Forall (fun r : Z * SleepRow =>
            stage_in_phase (snd r) /\
            exists g' : list Q,
              stage (snd r) =
              fst (np_random.choice (Tape.replay negative_movement_draws)
                     (fst (spec_stage_distribution (timeOfNight (snd r))))
                     (snd (spec_stage_distribution (timeOfNight (snd r)))) g'))
         (fst (generate_synthetic_sleep_data (Tape.replay negative_movement_draws) 3 [])).
Proof.
  apply (stage_drawn_from_phase (Tape.replay negative_movement_draws)
           (replay_choice_in_options negative_movement_draws) 3 []).
Defined.

Lemma previous_stage_from_stage_witness :
  Forall (fun r : Z * SleepRow =>
            (previousStage (snd r) = (stage (snd r) - 1) `mod` 4
             \/ previousStage (snd r) = stage (snd r))
            /\ 0 <= previousStage (snd r) <= 3
            /\ exists g' : list Q,
                 previousStage (snd r) =
                 if Qltb 0.3 (fst (np_random.random (Tape.replay negative_movement_draws) g'))
                 then (stage (snd r) - 1) `mod` 4
                 else stage (snd r))
         (fst (generate_synthetic_sleep_data (Tape.replay negative_movement_draws) 3 []))
  /\ 7 * Z.of_nat 10 - 10
       <= 10 * Z.of_nat (length (List.filter (Qltb 0.3) (uniform_grid 10)))
       <= 7 * Z.of_nat 10.
Proof.
  destruct (previous_stage_from_stage (Tape.replay negative_movement_draws)
              (replay_choice_in_options negative_movement_draws) 3 []) as [Hrows Hshare].
  split.
  - exact Hrows.
  - apply (Hshare 10%nat). lia.
Defined.

Lemma split_is_partition_witness :
  Permutation (firstn 8 light_only ++ skipn 8 light_only) light_only
  /\ forall r, In r (firstn 8 light_only) -> ~ In r (skipn 8 light_only).
Proof.
  destruct (split_is_partition sklearn.in_order light_only
              (firstn 8 light_only) (skipn 8 light_only) in_order_partitions)
    as [Hperm Hdisj].
  - vm_compute. reflexivity.
  - split; [exact Hperm|]. apply Hdisj. apply pd_DataFrame_index_NoDup.
Defined.

Lemma one_member_class_raises_witness :
  (exists msg,
     create_ml_training_data sklearn.in_order
       (pd_DataFrame (deep_row :: repeat light_row 9)) = Raise (ValueError msg))
  /\ forall train test,
       create_ml_training_data sklearn.in_order
         (pd_DataFrame (deep_row :: repeat light_row 9)) <> Ok (train, test).
Proof.
  apply (one_member_class_raises sklearn.in_order
           (pd_DataFrame (deep_row :: repeat light_row 9)) Deep).
  - vm_compute. auto.
  - vm_compute. lia.
Defined.

Lemma split_of_10000_witness :
  exists train test,
    create_ml_training_data sklearn.in_order ten_thousand_rows = Ok (train, test) /\
    Z.of_nat (length train) = 8000 /\ Z.of_nat (length test) = 2000.
Proof.
  apply (proj2 (split_of_10000 sklearn.in_order ten_thousand_rows
                  in_order_partitions eq_refl)).
  - apply (bool_decide_unpack _). lazy. exact I.
  - apply (bool_decide_unpack _). lazy. exact I.
Defined.

Lemma f1_score_default_witness :
  exists md : Metadata,
    create_model_metadata example_metrics = Ok md
    /\ (example_metrics !! "f1" = None -> f1_score (performance_metrics md) = 0.0%Q)
    /\ (forall v, example_metrics !! "f1" = Some v ->
                  f1_score (performance_metrics md) = v).
Proof.
  apply (f1_score_default example_metrics 0.91%Q 0.88%Q 0.85%Q); reflexivity.
Defined.

Lemma metadata_constants_witness :
  exists md : Metadata,
    create_model_metadata example_metrics = Ok md
    /\ length (input_features (features md)) = 8%nat
    /\ output_classes (features md) = [ "awake"; "light"; "deep"; "rem" ].
Proof.
  destruct (metadata_constants example_metrics 0.91%Q 0.88%Q 0.85%Q)
    as (md & Hmd & _ & Hlen & Hout & _); try reflexivity.
  exists md. repeat split; assumption.
Defined.

Lemma required_metrics_witness :
  exists key,
    create_model_metadata metrics_without_precision = Raise (KeyError key)
    /\ In key ["accuracy"; "precision"; "recall"]
    /\ metrics_without_precision !! key = None.
Proof.
  apply (proj1 (required_metrics metrics_without_precision)).
  right. left. reflexivity.
Defined.

(** * Further properties of the script *)

(** ** The generator *)

(** X1.  The table has [n_samples] rows (none for a negative argument)
    and its index is 0, 1, ..., n_samples - 1 in row order. *)
Theorem generated_table_shape (R : np_random.RandomState) (n : Z) (g : np_random.state R) :
  Z.of_nat (length (fst (generate_synthetic_sleep_data R n g))) = Z.max 0 n
  /\ map fst (fst (generate_synthetic_sleep_data R n g)) = range n.
Proof.
  split.
  - rewrite generate_length. lia.
  - unfold generate_synthetic_sleep_data.
    destruct (sample_loop R (Z.to_nat n) [] (np_random.seed R 42)) as [data g'] eqn:E.
    simpl. rewrite pd_DataFrame_index.
    change data with (fst (data, g')). rewrite <- E, sample_loop_length. simpl.
    unfold range. now rewrite Nat2Z.id.
Qed.

(** X2.  Whatever the random library returns, every row has heartRate in
    [40, 100], hrv in [10, 80], bloodOxygen in [90, 100], temperature in
    [35.5, 37.5], breathingRate in [8, 25] and movement at most 1. *)
Theorem generated_fields_clamped (R : np_random.RandomState) (n : Z)
    (g : np_random.state R) :
  Forall (fun r : Z * SleepRow =>
            (40 <= heartRate (snd r) <= 100)%Q /\
            (10 <= hrv (snd r) <= 80)%Q /\
            (movement (snd r) <= 1)%Q /\
            (90 <= bloodOxygen (snd r) <= 100)%Q /\
            (35.5 <= temperature (snd r) <= 37.5)%Q /\
            (8 <= breathingRate (snd r) <= 25)%Q)
         (fst (generate_synthetic_sleep_data R n g)).
Proof.
  apply (generate_Forall R clamped). apply sample_row_clamped.
Qed.

Lemma pop_drop (g : list Q) : Tape.pop g = (hd 0%Q g, drop 1 g).
Proof. destruct g; reflexivity. Qed.

Lemma replay_row_variates (draws g : list Q) :
  snd (sample_row (Tape.replay draws) g) = drop 15 g.
Proof.
  unfold sample_row, phase_bucket, bind, ret. simpl.
  unfold bind, ret.
  rewrite pop_drop. cbv iota beta.
  destruct (Qltb _ 1); [| destruct (Qltb _ 3); [| destruct (Qltb _ 5)]].
  all: repeat (rewrite pop_drop; cbv iota beta).
  all: cbn [snd]; rewrite !drop_drop; reflexivity.
Qed.

Lemma replay_loop_variates (draws : list Q) (k : nat) (data : list SleepRow) (g : list Q) :
  snd (sample_loop (Tape.replay draws) k data g) = drop (15 * k) g.
Proof.
  revert data g. induction k as [|k IH]; intros data g.
  - simpl. now rewrite drop_0.
  - simpl. unfold bind.
    pose proof (replay_row_variates draws g) as Hrow.
    destruct (sample_row (Tape.replay draws) g) as [row g1]. simpl in Hrow.
    rewrite IH, Hrow, drop_drop. f_equal. lia.
Qed.

(** X3.  Every row draws exactly 15 variates, whichever phase it falls
    in: on a replayed list of variates, [n_samples] rows leave the list
    without its first 15 * n_samples entries. *)
Theorem rows_draw_fifteen_variates (draws g : list Q) (n : Z) :
  snd (generate_synthetic_sleep_data (Tape.replay draws) n g)
  = drop (15 * Z.to_nat n) draws.
Proof.
  unfold generate_synthetic_sleep_data.
  pose proof (replay_loop_variates draws (Z.to_nat n) [] draws) as H.
  change (np_random.seed (Tape.replay draws) 42) with draws.
  destruct (sample_loop (Tape.replay draws) (Z.to_nat n) [] draws) as [data g'].
  exact H.
Qed.

(** ** The splitter *)

Lemma validate_shuffle_split_cases (n : Z) :
  sklearn.validate_shuffle_split n 0.2 =
    Ok (n - Qceiling (0.2 * inject_Z n), Qceiling (0.2 * inject_Z n))
  \/ (n - Qceiling (0.2 * inject_Z n) = 0 /\
      exists msg, sklearn.validate_shuffle_split n 0.2 = Raise (ValueError msg)).
Proof.
  unfold sklearn.validate_shuffle_split.
  change (Qle_bool 0.2 0 || Qle_bool 1 0.2) with false. cbv iota.
  destruct (n - Qceiling (0.2 * inject_Z n) =? 0) eqn:E.
  - right. apply Z.eqb_eq in E. eauto.
  - left. reflexivity.
Qed.

Lemma stratified_shuffle_split_checks (S : sklearn.Shuffle) (y : list Z)
    (n_train n_test : Z) (split : list nat * list nat) :
  sklearn.stratified_shuffle_split S y n_train n_test = Ok split ->
  Forall (fun c => (2 <= count_occ Z.eq_dec y c)%nat) (nodup Z.eq_dec y)
  /\ Z.of_nat (length (nodup Z.eq_dec y)) <= n_train
  /\ Z.of_nat (length (nodup Z.eq_dec y)) <= n_test.
Proof.
  unfold sklearn.stratified_shuffle_split.
  destruct (existsb _ _) eqn:Ee; [discriminate|].
  destruct (n_train <? _) eqn:Etr; [discriminate|].
  destruct (n_test <? _) eqn:Ete; [discriminate|].
  intros _. apply Z.ltb_ge in Etr, Ete. repeat split; try assumption.
  apply List.Forall_forall. intros c Hc.
  destruct (le_lt_dec 2 (count_occ Z.eq_dec y c)) as [Hle|Hlt]; [exact Hle|].
  exfalso. apply not_true_iff_false in Ee. apply Ee.
  apply existsb_exists. exists (count_occ Z.eq_dec y c). split.
  - now apply in_map.
  - now apply Nat.ltb_lt.
Qed.

Lemma stratified_shuffle_split_cases (S : sklearn.Shuffle) (y : list Z) (n_train n_test : Z) :
  (exists split, sklearn.stratified_shuffle_split S y n_train n_test = Ok split)
  \/ (exists msg, sklearn.stratified_shuffle_split S y n_train n_test = Raise (ValueError msg)).
Proof.
  unfold sklearn.stratified_shuffle_split.
  destruct (existsb _ _); [eauto|].
  destruct (n_train <? _); [eauto|].
  destruct (n_test <? _); eauto.
Qed.

Lemma classes_nonempty (df : DataFrame) : df <> [] -> (1 <= length (classes df))%nat.
Proof.
  destruct df as [|r df]; [congruence|]. intros _.
  assert (Hin : In (stage (snd r)) (classes (r :: df))).
  { apply nodup_In. simpl. auto. }
  destruct (classes (r :: df)); [destruct Hin | simpl; lia].
Qed.

Section SplitterMore.

Variable S : sklearn.Shuffle.
Hypothesis S_partitions : sklearn.partitions S.

(** On a frame with rows the call returns or raises a [ValueError]. *)
Lemma create_ml_training_data_cases (df : DataFrame) :
  df <> [] ->
  (exists train test, create_ml_training_data S df = Ok (train, test))
  \/ (exists msg, create_ml_training_data S df = Raise (ValueError msg)).
Proof.
  intros Hne.
  destruct (validate_shuffle_split_cases (Z.of_nat (length df))) as [Hv|[_ [msg Hv]]].
  - destruct (stratified_shuffle_split_cases S (stages df)
                (Z.of_nat (length df) - Qceiling (0.2 * inject_Z (Z.of_nat (length df))))
                (Qceiling (0.2 * inject_Z (Z.of_nat (length df)))))
      as [[split Hs]|[msg Hs]].
    + left. apply stratified_shuffle_split_checks in Hs.
      destruct Hs as (Hmin & Htr & Hte).
      destruct (create_ml_training_data_succeeds S df _ _ S_partitions Hv Hmin Htr Hte)
        as (train & test & Hok & _).
      eauto.
    + right. exists msg.
      rewrite (create_ml_training_data_rows S df Hne).
      unfold sklearn.train_test_split.
      rewrite !length_map, Nat.eqb_refl, map_map. cbn [negb snd].
      fold (stages df). rewrite Hv. cbn [and_then fst snd]. rewrite Hs.
      reflexivity.
  - right. exists msg.
    rewrite (create_ml_training_data_rows S df Hne).
    unfold sklearn.train_test_split.
    rewrite !length_map, Nat.eqb_refl, map_map. cbn [negb snd].
    rewrite Hv. reflexivity.
Qed.

(** The frames of a successful call rearrange the input. *)
Lemma create_ml_training_data_Permutation (df train test : DataFrame) :
  create_ml_training_data S df = Ok (train, test) ->
  Permutation (train ++ test) df.
Proof.
  intros Hok.
  destruct (create_ml_training_data_Ok S df train test Hok)
    as (n_train & n_test & tr & te & Hv & Hs & Htr & Hte).
  destruct (validate_shuffle_split_fifth _ _ _ (Nat2Z.is_nonneg _) Hv)
    as (Ht & Hn & Hpos & Hnn).
  apply stratified_shuffle_split_Ok in Hs.
  destruct (S_partitions (stages df) (Z.to_nat n_train) (Z.to_nat n_test)) as (Hp & _).
  { rewrite stages_length. lia. }
  rewrite <- Hs, stages_length in Hp. simpl in Hp.
  destruct (partition_positions_rows df tr te Hp) as (k1 & k2 & H1 & H2 & Hperm).
  assert (k1 = train) by congruence. assert (k2 = test) by congruence. now subst.
Qed.

Lemma create_ml_training_data_sizes (df train test : DataFrame) :
  create_ml_training_data S df = Ok (train, test) ->
  Z.of_nat (length test) = Qceiling (0.2 * inject_Z (Z.of_nat (length df)))
  /\ Z.of_nat (length train) = Z.of_nat (length df) - Z.of_nat (length test)
  /\ 0 < Z.of_nat (length train)
  /\ Z.of_nat (length (classes df)) <= Z.of_nat (length train)
  /\ Z.of_nat (length (classes df)) <= Z.of_nat (length test)
  /\ Forall (fun c => (2 <= class_count df c)%nat) (classes df).
Proof.
  intros Hok.
  destruct (create_ml_training_data_Ok S df train test Hok)
    as (n_train & n_test & tr & te & Hv & Hs & Htr & Hte).
  destruct (validate_shuffle_split_fifth _ _ _ (Nat2Z.is_nonneg _) Hv)
    as (Ht & Hn & Hpos & Hnn).
  destruct (stratified_shuffle_split_checks _ _ _ _ _ Hs) as (Hmin & Hctr & Hcte).
  apply stratified_shuffle_split_Ok in Hs.
  destruct (S_partitions (stages df) (Z.to_nat n_train) (Z.to_nat n_test))
    as (_ & Hl1 & Hl2).
  { rewrite stages_length. lia. }
  rewrite <- Hs in Hl1, Hl2. simpl in Hl1, Hl2.
  apply mapM_length in Htr, Hte.
  assert (Z.of_nat (length train) = n_train) by lia.
  assert (Z.of_nat (length test) = n_test) by lia.
  unfold classes, class_count. repeat split; try assumption; lia.
Qed.

End SplitterMore.

(** X4.  A frame of n rows that is split gives ceil(n / 5) test rows and
    the other n - ceil(n / 5) rows to train; neither frame is empty. *)
Theorem split_sizes (S : sklearn.Shuffle) (df train test : DataFrame) :
  sklearn.partitions S ->
  create_ml_training_data S df = Ok (train, test) ->
  Z.of_nat (length df) <= 5 * Z.of_nat (length test) < Z.of_nat (length df) + 5
  /\ Z.of_nat (length train) + Z.of_nat (length test) = Z.of_nat (length df)
  /\ 0 < Z.of_nat (length train)
  /\ 0 < Z.of_nat (length test).
Proof.
  intros HS Hok.
  destruct (create_ml_training_data_sizes S HS df train test Hok)
    as (Hte & Htr & Hpos & _).
  pose proof (ceiling_fifth (Z.of_nat (length df))) as Hc.
  rewrite <- Hte in Hc. lia.
Qed.

(** X5.  The splitter returns exactly on the non-empty frames in which
    every class has at least two members and the number of classes
    exceeds neither the test size ceil(n / 5) nor the train size. *)
Theorem split_returns_iff (S : sklearn.Shuffle) (df : DataFrame) :
  sklearn.partitions S ->
  (exists train test, create_ml_training_data S df = Ok (train, test))
  <->
  (df <> []
   /\ Forall (fun c => (2 <= class_count df c)%nat) (classes df)
   /\ Z.of_nat (length (classes df))
        <= Qceiling (0.2 * inject_Z (Z.of_nat (length df)))
   /\ Z.of_nat (length (classes df))
        <= Z.of_nat (length df) - Qceiling (0.2 * inject_Z (Z.of_nat (length df)))).
Proof.
  intros HS. split.
  - intros (train & test & Hok).
    destruct (create_ml_training_data_sizes S HS df train test Hok)
      as (Hte & Htr & Hpos & Hctr & Hcte & Hmin).
    repeat split; try assumption; try lia.
    intros ->. simpl in *. lia.
  - intros (Hne & Hmin & Hcte & Hctr).
    pose proof (classes_nonempty df Hne) as Hcl.
    destruct (validate_shuffle_split_cases (Z.of_nat (length df))) as [Hv|[Hz _]]; [|lia].
    destruct (create_ml_training_data_succeeds S df _ _ HS Hv Hmin Hctr Hcte)
      as (train & test & Hok & _).
    eauto.
Qed.

(** X6.  A frame too small to split is refused.  The frame without
    rows, which is what the generator returns for [n_samples <= 0], has
    no columns, and selecting the feature columns raises [KeyError]; a
    frame of one row raises [ValueError], as no row would be left to
    train on. *)
Theorem small_frame_raises (S : sklearn.Shuffle) :
  (exists key, create_ml_training_data S [] = Raise (KeyError key))
  /\ (forall (R : np_random.RandomState) (n : Z) (g : np_random.state R),
        n <= 0 ->
        exists key,
          create_ml_training_data S (fst (generate_synthetic_sleep_data R n g))
          = Raise (KeyError key))
  /\ (forall df : DataFrame,
        length df = 1%nat ->
        exists msg, create_ml_training_data S df = Raise (ValueError msg)).
Proof.
  split; [apply create_ml_training_data_no_rows|]. split.
  - intros R n g Hn.
    assert (Hempty : fst (generate_synthetic_sleep_data R n g) = []).
    { apply length_zero_iff_nil. rewrite generate_length. lia. }
    rewrite Hempty. apply create_ml_training_data_no_rows.
  - intros df Hlen.
    assert (Hne : df <> []) by (intros ->; discriminate Hlen).
    destruct (validate_shuffle_split_cases (Z.of_nat (length df))) as [Hv|[_ [msg Hv]]].
    + exfalso. rewrite Hlen in Hv. discriminate Hv.
    + exists msg.
      rewrite (create_ml_training_data_rows S df Hne).
      unfold sklearn.train_test_split.
      rewrite !length_map, Nat.eqb_refl, map_map. cbn [negb snd].
      rewrite Hv. reflexivity.
Qed.

(** X7.  The splitter raises [KeyError] on the frame without rows and
    columns, and nothing but [ValueError] on a frame with rows: given the
    guarantee of the shuffle, indexing by the positions it returns cannot
    fail. *)
Theorem split_raises_only_ValueError (S : sklearn.Shuffle) (df : DataFrame) (e : PyExc) :
  sklearn.partitions S ->
  create_ml_training_data S df = Raise e ->
  (df = [] /\ exists key, e = KeyError key)
  \/ (df <> [] /\ exists msg, e = ValueError msg).
Proof.
  intros HS Hraise. destruct df as [|r df].
  - left. split; [reflexivity|].
    destruct (create_ml_training_data_no_rows S) as [key Hkey].
    exists key. congruence.
  - right. split; [discriminate|].
    destruct (create_ml_training_data_cases S HS (r :: df)) as [(train & test & Hok)|[msg Hmsg]].
    + discriminate.
    + congruence.
    + exists msg. congruence.
Qed.

Lemma generated_stages_domain (R : np_random.RandomState) (n : Z) (g : np_random.state R) :
  np_random.choice_in_options R ->
  Forall (fun c => 0 <= c <= 3) (stages (fst (generate_synthetic_sleep_data R n g))).
Proof.
  intros Hc. unfold stages. apply Forall_map.
  apply (generate_Forall R (fun r => 0 <= stage r <= 3)).
  intros g0. now apply sample_row_stage_domain.
Qed.

(** X8.  The generator feeds the splitter: a generated table of at least
    16 rows in which every class that occurs has two members or more is
    always split, into frames that together rearrange the table, with
    ceil(n / 5) test rows. *)
Theorem generated_table_is_split (R : np_random.RandomState) (S : sklearn.Shuffle)
    (n : Z) (g : np_random.state R) :
  np_random.choice_in_options R ->
  sklearn.partitions S ->
  16 <= n ->
  Forall (fun c => (2 <= class_count (fst (generate_synthetic_sleep_data R n g)) c)%nat)
         (classes (fst (generate_synthetic_sleep_data R n g))) ->
  exists train test,
    create_ml_training_data S (fst (generate_synthetic_sleep_data R n g)) = Ok (train, test)
    /\ Permutation (train ++ test) (fst (generate_synthetic_sleep_data R n g))
    /\ n <= 5 * Z.of_nat (length test) < n + 5
    /\ Z.of_nat (length train) + Z.of_nat (length test) = n.
Proof.
  intros HR HS Hn Hmin.
  set (table := fst (generate_synthetic_sleep_data R n g)) in *.
  assert (Hlen : Z.of_nat (length table) = n).
  { unfold table. rewrite generate_length. lia. }
  pose proof (classes_few table (generated_stages_domain R n g HR)) as Hfew.
  pose proof (ceiling_fifth n) as Hc.
  destruct (validate_shuffle_split_cases (Z.of_nat (length table))) as [Hv|[Hz _]].
  2: { rewrite Hlen in Hz. lia. }
  destruct (create_ml_training_data_succeeds S table _ _ HS Hv Hmin)
    as (train & test & Hok & Htr & Hte).
  { rewrite Hlen. lia. }
  { rewrite Hlen. lia. }
  exists train, test. rewrite Hlen in Htr, Hte.
  repeat split; try lia.
  - exact Hok.
  - now apply (create_ml_training_data_Permutation S HS).
Qed.

(** ** The metadata composer *)

(** X9.  The accuracy, precision and recall of the record are the values
    of the metrics dict, unchanged. *)
Theorem metrics_copied (m : gmap string Q) (md : Metadata) :
  create_model_metadata m = Ok md ->
  m !! "accuracy" = Some (accuracy (performance_metrics md))
  /\ m !! "precision" = Some (precision (performance_metrics md))
  /\ m !! "recall" = Some (recall (performance_metrics md)).
Proof.
  unfold create_model_metadata, getitem.
  destruct (m !! "accuracy") as [a|]; [|discriminate].
  destruct (m !! "precision") as [p|]; [|discriminate].
  destruct (m !! "recall") as [r|]; [|discriminate].
  cbn [and_then]. intros [= <-]. repeat split.
Qed.

(** X10.  The composer reads the four keys accuracy, precision, recall
    and f1 and nothing else: metrics that agree on them give the same
    outcome, whatever other entries they hold. *)
Theorem only_four_keys_read (m1 m2 : gmap string Q) :
  (forall key, In key ["accuracy"; "precision"; "recall"; "f1"] -> m1 !! key = m2 !! key) ->
  create_model_metadata m1 = create_model_metadata m2.
Proof.
  intros H. unfold create_model_metadata, getitem, get.
  rewrite (H "accuracy"), (H "precision"), (H "recall"), (H "f1"); simpl; auto 6.
Qed.

(** X11.  The [KeyError] names the first missing key in the order
    accuracy, precision, recall. *)
Theorem first_missing_key_raised (m : gmap string Q) :
  (m !! "accuracy" = None ->
   create_model_metadata m = Raise (KeyError "accuracy"))
  /\ (is_Some (m !! "accuracy") -> m !! "precision" = None ->
      create_model_metadata m = Raise (KeyError "precision"))
  /\ (is_Some (m !! "accuracy") -> is_Some (m !! "precision") -> m !! "recall" = None ->
      create_model_metadata m = Raise (KeyError "recall")).
Proof.
  unfold create_model_metadata, getitem. repeat split.
  - now intros ->.
  - intros [a ->] ->. reflexivity.
  - intros [a ->] [p ->] ->. reflexivity.
Qed.

(** X12.  The record describes the training that [train_core_ml_model]
    configures: its epochs, batch size and learning rate are those of
    [model_config], its architecture string lists the output sizes of the
    layers, and there are as many output classes as output units. *)
Theorem metadata_describes_model_config (m : gmap string Q) (md : Metadata) :
  create_model_metadata m = Ok md ->
  epochs (training_info md) = cm.epochs (cm.parameters model_config)
  /\ batch_size (training_info md) = cm.batchSize (cm.parameters model_config)
  /\ learning_rate (training_info md) = cm.learningRate (cm.parameters model_config)
  /\ architecture (training_info md)
     = String.concat "-"
         (map (fun l => pretty (cm.outputSize l)) (cm.layers (cm.parameters model_config)))
       +:+ " (ReLU activation)"
  /\ (cm.outputSize <$> last (cm.layers (cm.parameters model_config)))
     = Some (Z.of_nat (length (output_classes (features md)))).
Proof.
  unfold create_model_metadata, getitem.
  destruct (m !! "accuracy") as [a|]; [|discriminate].
  destruct (m !! "precision") as [p|]; [|discriminate].
  destruct (m !! "recall") as [r|]; [|discriminate].
  cbn [and_then]. intros [= <-]. repeat split.
Qed.

(** ** The trainer and the pipeline *)

Ltac run_io :=
  unfold io_bind, print, emit, lift, draw, io_ret; cbn [generator events].

Section PipelineFacts.

Variable R : np_random.RandomState.
Variable S : sklearn.Shuffle.
Variable T : cm.Library.
Variable format_3f : Q -> string.

(** The run of [train_core_ml_model], case by case. *)
Lemma train_core_ml_model_run (train test : DataFrame) (path : string) (w : World R T) :
  train_core_ml_model R T format_3f train test path w =
  match cm.neural_network_classifier T train "stage"
          ["heartRate"; "hrv"; "movement"; "bloodOxygen";
           "temperature"; "breathingRate"; "timeOfNight"; "previousStage"]
          test model_config with
  | Raise e =>
      (Raise e,
       added w [Printed "🤖 Training Core ML Sleep Stage Prediction Model..."])
  | Ok model =>
      let evaluation := cm.evaluation_metrics T model in
      match evaluation !! "accuracy", evaluation !! "precision", evaluation !! "recall" with
      | None, _, _ =>
          (Raise (KeyError "accuracy"),
           added w [Printed "🤖 Training Core ML Sleep Stage Prediction Model..."])
      | Some a, None, _ =>
          (Raise (KeyError "precision"),
           added w [Printed "🤖 Training Core ML Sleep Stage Prediction Model...";
                    Printed ("📊 Model Accuracy: " +:+ format_3f a)])
      | Some a, Some p, None =>
          (Raise (KeyError "recall"),
           added w [Printed "🤖 Training Core ML Sleep Stage Prediction Model...";
                    Printed ("📊 Model Accuracy: " +:+ format_3f a);
                    Printed ("📊 Precision: " +:+ format_3f p)])
      | Some a, Some p, Some r =>
          (Ok (model, evaluation),
           added w [Printed "🤖 Training Core ML Sleep Stage Prediction Model...";
                    Printed ("📊 Model Accuracy: " +:+ format_3f a);
                    Printed ("📊 Precision: " +:+ format_3f p);
                    Printed ("📊 Recall: " +:+ format_3f r);
                    Saved model path;
                    Printed ("✅ Model saved to: " +:+ path)])
      end
  end.
Proof.
  unfold train_core_ml_model, added. run_io.
  destruct (cm.neural_network_classifier _ _ _ _ _ _) as [model|e]; [|reflexivity].
  unfold getitem. cbv zeta.
  destruct (cm.evaluation_metrics T model !! "accuracy") as [a|]; [|reflexivity].
  destruct (cm.evaluation_metrics T model !! "precision") as [p|];
    [|rewrite <- !app_assoc; reflexivity].
  destruct (cm.evaluation_metrics T model !! "recall") as [r|];
    rewrite <- !app_assoc; reflexivity.
Qed.

End PipelineFacts.

(** X13.  When [train_core_ml_model] raises, the model has not been
    saved: all it has done is print.  It raises the trainer's own error,
    or a [KeyError] for one of accuracy, precision and recall that the
    metrics of the trained model lack. *)
Theorem train_raise_saves_nothing (R : np_random.RandomState) (T : cm.Library)
    (format_3f : Q -> string) (train test : DataFrame) (path : string)
    (w w' : World R T) (e : PyExc) :
  train_core_ml_model R T format_3f train test path w = (Raise e, w') ->
  (exists lines : list string, w' = added w (map Printed lines))
  /\ (cm.neural_network_classifier T train "stage"
        ["heartRate"; "hrv"; "movement"; "bloodOxygen";
         "temperature"; "breathingRate"; "timeOfNight"; "previousStage"]
        test model_config = Raise e
      \/ exists model key,
           cm.neural_network_classifier T train "stage"
             ["heartRate"; "hrv"; "movement"; "bloodOxygen";
              "temperature"; "breathingRate"; "timeOfNight"; "previousStage"]
             test model_config = Ok model
           /\ e = KeyError key
           /\ In key ["accuracy"; "precision"; "recall"]
           /\ cm.evaluation_metrics T model !! key = None).
Proof.
  rewrite train_core_ml_model_run.
  destruct (cm.neural_network_classifier _ _ _ _ _ _) as [model|e0] eqn:Ecl.
  - cbv zeta.
    destruct (cm.evaluation_metrics T model !! "accuracy") as [a|] eqn:Ea;
      [destruct (cm.evaluation_metrics T model !! "precision") as [p|] eqn:Ep;
       [destruct (cm.evaluation_metrics T model !! "recall") as [r|] eqn:Er|]|];
      intros [= <- <-].
    + split; [eexists [_; _; _]; reflexivity|].
      right. exists model, "recall". repeat split; simpl; auto 6.
    + split; [eexists [_; _]; reflexivity|].
      right. exists model, "precision". repeat split; simpl; auto 6.
    + split; [eexists [_]; reflexivity|].
      right. exists model, "accuracy". repeat split; simpl; auto 6.
  - intros [= <- <-]. split; [eexists [_]; reflexivity | now left].
Qed.

(** X14.  When [train_core_ml_model] returns, it returns the model the
    trainer built from the train frame, with the test frame for
    validation, and the metrics of that model, which hold accuracy,
    precision and recall; the model has been saved once, at
    [output_path], after the three metrics were printed. *)
Theorem train_returns (R : np_random.RandomState) (T : cm.Library)
    (format_3f : Q -> string) (train test : DataFrame) (path : string)
    (w w' : World R T) (model : cm.model T) (evaluation : gmap string Q) :
  train_core_ml_model R T format_3f train test path w = (Ok (model, evaluation), w') ->
  cm.neural_network_classifier T train "stage"
    ["heartRate"; "hrv"; "movement"; "bloodOxygen";
     "temperature"; "breathingRate"; "timeOfNight"; "previousStage"]
    test model_config = Ok model
  /\ evaluation = cm.evaluation_metrics T model
  /\ exists a p r,
       evaluation !! "accuracy" = Some a
       /\ evaluation !! "precision" = Some p
       /\ evaluation !! "recall" = Some r
       /\ w' = added w
                 [Printed "🤖 Training Core ML Sleep Stage Prediction Model...";
                  Printed ("📊 Model Accuracy: " +:+ format_3f a);
                  Printed ("📊 Precision: " +:+ format_3f p);
                  Printed ("📊 Recall: " +:+ format_3f r);
                  Saved model path;
                  Printed ("✅ Model saved to: " +:+ path)].
Proof.
  rewrite train_core_ml_model_run.
  destruct (cm.neural_network_classifier _ _ _ _ _ _) as [model0|e0] eqn:Ecl;
    [|discriminate].
  cbv zeta.
  destruct (cm.evaluation_metrics T model0 !! "accuracy") as [a|] eqn:Ea;
    [|discriminate].
  destruct (cm.evaluation_metrics T model0 !! "precision") as [p|] eqn:Ep;
    [|discriminate].
  destruct (cm.evaluation_metrics T model0 !! "recall") as [r|] eqn:Er;
    [|discriminate].
  intros [= <- <- <-]. repeat split.
  exists a, p, r. repeat split; assumption.
Qed.

Ltac tidy_world :=
  repeat progress (cbn [generator events fst snd app]; rewrite <- ?app_assoc).

Section MainFacts.

Variable R : np_random.RandomState.
Variable S : sklearn.Shuffle.
Variable T : cm.Library.
Variable format_3f : Q -> string.

(** The run of [main], step by step. *)
Lemma main_run (w : World R T) :
  main R S T format_3f w =
  let table := fst (generate_synthetic_sleep_data R 10000 (generator w)) in
  let w1 := {| generator := snd (generate_synthetic_sleep_data R 10000 (generator w));
               events := events w ++
                 [Printed "🚀 Starting Sleep Stage Prediction Model Training...";
                  MadeDirs "SomnaSync/ML";
                  Printed "📊 Generating synthetic sleep data...";
                  Printed "🔧 Preparing training data..."] |} in
  match create_ml_training_data S table with
  | Raise e => (Raise e, w1)
  | Ok (train_data, test_data) =>
      match train_core_ml_model R T format_3f train_data test_data
              "SomnaSync/ML/SleepStagePredictor.mlmodel" w1 with
      | (Raise e, w2) => (Raise e, w2)
      | (Ok (model, evaluation), w2) =>
          match create_model_metadata evaluation with
          | Raise e => (Raise e, w2)
          | Ok metadata =>
              match evaluation !! "accuracy" with
              | None =>
                  (Raise (KeyError "accuracy"),
                   added w2
                     [Dumped "SomnaSync/ML/model_metadata.json" metadata 2;
                      Printed ("📋 Model metadata saved to: "
                               +:+ "SomnaSync/ML/model_metadata.json");
                      Printed (String "010"%char "🎉 Training Complete!");
                      Printed ("📁 Model: " +:+ "SomnaSync/ML/SleepStagePredictor.mlmodel");
                      Printed ("📁 Metadata: " +:+ "SomnaSync/ML/model_metadata.json")])
              | Some acc =>
                  (Ok (model, evaluation),
                   added w2
                     [Dumped "SomnaSync/ML/model_metadata.json" metadata 2;
                      Printed ("📋 Model metadata saved to: "
                               +:+ "SomnaSync/ML/model_metadata.json");
                      Printed (String "010"%char "🎉 Training Complete!");
                      Printed ("📁 Model: " +:+ "SomnaSync/ML/SleepStagePredictor.mlmodel");
                      Printed ("📁 Metadata: " +:+ "SomnaSync/ML/model_metadata.json");
                      Printed ("📊 Accuracy: " +:+ format_3f acc)])
              end
          end
      end
  end.
Proof.
  unfold main, added.
  change (os_path_join "SomnaSync/ML" "SleepStagePredictor.mlmodel")
    with "SomnaSync/ML/SleepStagePredictor.mlmodel".
  change (os_path_join "SomnaSync/ML" "model_metadata.json")
    with "SomnaSync/ML/model_metadata.json".
  run_io. cbv zeta.
  destruct (generate_synthetic_sleep_data R 10000 (generator w)) as [table g].
  tidy_world.
  destruct (create_ml_training_data S table) as [[train_data test_data]|e];
    [|tidy_world; reflexivity].
  tidy_world.
  destruct (train_core_ml_model _ _ _ _ _ _ _) as [[[model evaluation]|e] w2];
    [|reflexivity].
  destruct (create_model_metadata evaluation) as [metadata|e]; [|reflexivity].
  unfold getitem.
  destruct (evaluation !! "accuracy") as [acc|]; tidy_world; reflexivity.
Qed.

End MainFacts.

(** X15.  When [main] returns, the generated table of 10000 rows was
    split into 8000 train and 2000 test rows, the sample counts the
    metadata states; the trainer built the returned model from them; the
    metadata was composed from the returned metrics; and what was printed
    and written is, in this order: the directory SomnaSync/ML, the model
    at SomnaSync/ML/SleepStagePredictor.mlmodel, then the metadata at
    SomnaSync/ML/model_metadata.json. *)
Theorem main_returns (R : np_random.RandomState) (S : sklearn.Shuffle) (T : cm.Library)
    (format_3f : Q -> string) (w w' : World R T)
    (model : cm.model T) (evaluation : gmap string Q) :
  sklearn.partitions S ->
  main R S T format_3f w = (Ok (model, evaluation), w') ->
  exists (train test : DataFrame) (metadata : Metadata) (a p r : Q),
    create_ml_training_data S (fst (generate_synthetic_sleep_data R 10000 (generator w)))
      = Ok (train, test)
    /\ Z.of_nat (length train) = training_samples (training_info metadata)
    /\ Z.of_nat (length test) = validation_samples (training_info metadata)
    /\ cm.neural_network_classifier T train "stage"
         (input_features (features metadata)) test model_config = Ok model
    /\ evaluation = cm.evaluation_metrics T model
    /\ create_model_metadata evaluation = Ok metadata
    /\ evaluation !! "accuracy" = Some a
    /\ evaluation !! "precision" = Some p
    /\ evaluation !! "recall" = Some r
    /\ generator w' = snd (generate_synthetic_sleep_data R 10000 (generator w))
    /\ events w' = events w ++
         [Printed "🚀 Starting Sleep Stage Prediction Model Training...";
          MadeDirs "SomnaSync/ML";
          Printed "📊 Generating synthetic sleep data...";
          Printed "🔧 Preparing training data...";
          Printed "🤖 Training Core ML Sleep Stage Prediction Model...";
          Printed ("📊 Model Accuracy: " +:+ format_3f a);
          Printed ("📊 Precision: " +:+ format_3f p);
          Printed ("📊 Recall: " +:+ format_3f r);
          Saved model "SomnaSync/ML/SleepStagePredictor.mlmodel";
          Printed ("✅ Model saved to: " +:+ "SomnaSync/ML/SleepStagePredictor.mlmodel");
          Dumped "SomnaSync/ML/model_metadata.json" metadata 2;
          Printed ("📋 Model metadata saved to: " +:+ "SomnaSync/ML/model_metadata.json");
          Printed (String "010"%char "🎉 Training Complete!");
          Printed ("📁 Model: " +:+ "SomnaSync/ML/SleepStagePredictor.mlmodel");
          Printed ("📁 Metadata: " +:+ "SomnaSync/ML/model_metadata.json");
          Printed ("📊 Accuracy: " +:+ format_3f a)].
Proof.
  intros HS. rewrite main_run. cbv zeta.
  destruct (create_ml_training_data S _) as [[train test]|e0] eqn:Esplit;
    [|discriminate].
  rewrite train_core_ml_model_run.
  destruct (cm.neural_network_classifier _ _ _ _ _ _) as [model0|e0] eqn:Ecl;
    [|discriminate].
  cbv zeta.
  destruct (cm.evaluation_metrics T model0 !! "accuracy") as [a|] eqn:Ea;
    [|discriminate].
  destruct (cm.evaluation_metrics T model0 !! "precision") as [p|] eqn:Ep;
    [|discriminate].
  destruct (cm.evaluation_metrics T model0 !! "recall") as [r|] eqn:Er;
    [|discriminate].
  destruct (create_model_metadata (cm.evaluation_metrics T model0))
    as [metadata|e0] eqn:Emd; [|discriminate].
  rewrite Ea. intros [= <- <- <-].
  destruct (create_ml_training_data_sizes S HS _ train test Esplit)
    as (Hte & Htr & _).
  rewrite generate_length in Hte, Htr.
  change (Qceiling (0.2 * inject_Z (Z.of_nat (Z.to_nat 10000)))) with 2000 in Hte.
  assert (Hmd : training_samples (training_info metadata) = 8000
                /\ validation_samples (training_info metadata) = 2000
                /\ input_features (features metadata) =
                   ["heartRate"; "hrv"; "movement"; "bloodOxygen";
                    "temperature"; "breathingRate"; "timeOfNight"; "previousStage"]).
  { revert Emd. unfold create_model_metadata, getitem. rewrite Ea, Ep, Er.
    cbn [and_then]. intros [= <-]. repeat split. }
  destruct Hmd as (Hts & Hvs & Hif).
  exists train, test, metadata, a, p, r.
  rewrite Hts, Hvs, Hif. unfold added. tidy_world.
  repeat split; try assumption; try reflexivity; lia.
Qed.

(** X16.  When [main] raises, neither the model nor the metadata has been
    written: all it has done is create the directory and print.  The
    error is the splitter's, the trainer's, or a [KeyError] for one of
    accuracy, precision and recall missing from the metrics of the
    trained model. *)
Theorem main_raise_writes_nothing (R : np_random.RandomState) (S : sklearn.Shuffle)
    (T : cm.Library) (format_3f : Q -> string) (w w' : World R T) (e : PyExc) :
  main R S T format_3f w = (Raise e, w') ->
  (exists lines : list string,
     events w' = events w ++
       Printed "🚀 Starting Sleep Stage Prediction Model Training..."
       :: MadeDirs "SomnaSync/ML"
       :: map Printed lines)
  /\ (create_ml_training_data S (fst (generate_synthetic_sleep_data R 10000 (generator w)))
        = Raise e
      \/ exists train test,
           create_ml_training_data S
             (fst (generate_synthetic_sleep_data R 10000 (generator w))) = Ok (train, test)
           /\ (cm.neural_network_classifier T train "stage"
                 ["heartRate"; "hrv"; "movement"; "bloodOxygen";
                  "temperature"; "breathingRate"; "timeOfNight"; "previousStage"]
                 test model_config = Raise e
               \/ exists model key,
                    cm.neural_network_classifier T train "stage"
                      ["heartRate"; "hrv"; "movement"; "bloodOxygen";
                       "temperature"; "breathingRate"; "timeOfNight"; "previousStage"]
                      test model_config = Ok model
                    /\ e = KeyError key
                    /\ In key ["accuracy"; "precision"; "recall"]
                    /\ cm.evaluation_metrics T model !! key = None)).
Proof.
  rewrite main_run. cbv zeta.
  destruct (create_ml_training_data S _) as [[train test]|e0] eqn:Esplit.
  2: { intros [= <- <-]. split; [eexists [_; _]; reflexivity | now left]. }
  rewrite train_core_ml_model_run.
  destruct (cm.neural_network_classifier _ _ _ _ _ _) as [model0|e0] eqn:Ecl.
  2: { intros [= <- <-]. unfold added. tidy_world.
       split; [eexists [_; _; _]; reflexivity|].
       right. exists train, test. split; [reflexivity | now left]. }
  cbv zeta.
  destruct (cm.evaluation_metrics T model0 !! "accuracy") as [a|] eqn:Ea.
  2: { intros [= <- <-]. unfold added. tidy_world.
       split; [eexists [_; _; _]; reflexivity|].
       right. exists train, test. split; [reflexivity|].
       right. exists model0, "accuracy". repeat split; simpl; auto 6. }
  destruct (cm.evaluation_metrics T model0 !! "precision") as [p|] eqn:Ep.
  2: { intros [= <- <-]. unfold added. tidy_world.
       split; [eexists [_; _; _; _]; reflexivity|].
       right. exists train, test. split; [reflexivity|].
       right. exists model0, "precision". repeat split; simpl; auto 6. }
  destruct (cm.evaluation_metrics T model0 !! "recall") as [r|] eqn:Er.
  2: { intros [= <- <-]. unfold added. tidy_world.
       split; [eexists [_; _; _; _; _]; reflexivity|].
       right. exists train, test. split; [reflexivity|].
       right. exists model0, "recall". repeat split; simpl; auto 6. }
  unfold create_model_metadata, getitem. rewrite Ea, Ep, Er.
  cbn [and_then]. discriminate.
Qed.

(** ** The further properties at concrete inputs *)

Lemma replay_empty_loop (k : nat) (data : list SleepRow) :
  sample_loop (Tape.replay []) k data [] = (data ++ repeat silent_row k, []).
Proof.
  revert data. induction k as [|k IH]; intros data.
  - simpl. unfold ret. now rewrite app_nil_r.
  - simpl. unfold bind.
    change (sample_row (Tape.replay []) []) with (silent_row, @nil Q).
    cbv beta iota. rewrite IH, <- app_assoc. reflexivity.
Qed.

Lemma replay_empty_table (n : Z) (g : list Q) :
  generate_synthetic_sleep_data (Tape.replay []) n g
  = (pd_DataFrame (repeat silent_row (Z.to_nat n)), []).
Proof.
  unfold generate_synthetic_sleep_data.
  change (np_random.seed (Tape.replay []) 42) with (@nil Q).
  now rewrite replay_empty_loop.
Qed.

Lemma silent_table_split :
  exists train test,
    create_ml_training_data sklearn.in_order
      (fst (generate_synthetic_sleep_data (Tape.replay []) 10000 [])) = Ok (train, test).
Proof.
  rewrite replay_empty_table. cbn [fst].
  destruct (create_ml_training_data_succeeds sklearn.in_order
              (pd_DataFrame (repeat silent_row (Z.to_nat 10000))) 8000 2000
              in_order_partitions) as (train & test & Hok & _).
  - reflexivity.
  - apply (bool_decide_unpack _). lazy. exact I.
  - lazy. discriminate.
  - lazy. discriminate.
  - eauto.
Qed.

(** With the split done, the model trained and its three metrics
    present, [main] runs to its end. *)
Lemma main_returns_when (R : np_random.RandomState) (S : sklearn.Shuffle) (T : cm.Library)
    (format_3f : Q -> string) (w : World R T) (train test : DataFrame)
    (model : cm.model T) (a p r : Q) :
  create_ml_training_data S (fst (generate_synthetic_sleep_data R 10000 (generator w)))
    = Ok (train, test) ->
  cm.neural_network_classifier T train "stage"
    ["heartRate"; "hrv"; "movement"; "bloodOxygen";
     "temperature"; "breathingRate"; "timeOfNight"; "previousStage"]
    test model_config = Ok model ->
  cm.evaluation_metrics T model !! "accuracy" = Some a ->
  cm.evaluation_metrics T model !! "precision" = Some p ->
  cm.evaluation_metrics T model !! "recall" = Some r ->
  exists w', main R S T format_3f w = (Ok (model, cm.evaluation_metrics T model), w').
Proof.
  intros Hsplit Hcl Ha Hp Hr.
  rewrite main_run. cbv zeta. rewrite Hsplit, train_core_ml_model_run, Hcl.
  cbv zeta. rewrite Ha, Hp, Hr.
  unfold create_model_metadata, getitem. rewrite Ha, Hp, Hr.
  cbn [and_then]. eauto.
Qed.

Lemma split_sizes_witness :
  Z.of_nat (length light_only) <= 5 * Z.of_nat (length (skipn 8 light_only))
    < Z.of_nat (length light_only) + 5
  /\ Z.of_nat (length (firstn 8 light_only)) + Z.of_nat (length (skipn 8 light_only))
     = Z.of_nat (length light_only)
  /\ 0 < Z.of_nat (length (firstn 8 light_only))
  /\ 0 < Z.of_nat (length (skipn 8 light_only)).
Proof.
  apply (split_sizes sklearn.in_order light_only
           (firstn 8 light_only) (skipn 8 light_only) in_order_partitions).
  vm_compute. reflexivity.
Defined.

Lemma split_returns_iff_witness :
  exists train test, create_ml_training_data sklearn.in_order light_only = Ok (train, test).
Proof.
  apply (split_returns_iff sklearn.in_order light_only in_order_partitions).
  repeat split.
  - discriminate.
  - apply (bool_decide_unpack _). vm_compute. exact I.
  - vm_compute. discriminate.
  - vm_compute. discriminate.
Defined.

Lemma small_frame_raises_witness :
  (exists key,
     create_ml_training_data sklearn.in_order
       (fst (generate_synthetic_sleep_data (Tape.replay []) 0 [])) = Raise (KeyError key))
  /\ exists msg, create_ml_training_data sklearn.in_order (pd_DataFrame [light_row])
                 = Raise (ValueError msg).
Proof.
  destruct (small_frame_raises sklearn.in_order) as (_ & Hgen & Hone).
  split.
  - apply (Hgen (Tape.replay []) 0 []). lia.
  - apply (Hone (pd_DataFrame [light_row])). reflexivity.
Defined.

Lemma split_raises_only_ValueError_witness :
  (pd_DataFrame [light_row] = []
   /\ exists key, ValueError "the resulting train set will be empty" = KeyError key)
  \/ (pd_DataFrame [light_row] <> []
      /\ exists msg, ValueError "the resulting train set will be empty" = ValueError msg).
Proof.
  apply (split_raises_only_ValueError sklearn.in_order (pd_DataFrame [light_row])
           (ValueError "the resulting train set will be empty") in_order_partitions).
  reflexivity.
Defined.

Lemma generated_table_is_split_witness :
  exists train test,
    create_ml_training_data sklearn.in_order
      (fst (generate_synthetic_sleep_data (Tape.replay []) 20 [])) = Ok (train, test)
    /\ Permutation (train ++ test)
         (fst (generate_synthetic_sleep_data (Tape.replay []) 20 []))
    /\ 20 <= 5 * Z.of_nat (length test) < 20 + 5
    /\ Z.of_nat (length train) + Z.of_nat (length test) = 20.
Proof.
  apply (generated_table_is_split (Tape.replay []) sklearn.in_order 20 []
           (replay_choice_in_options []) in_order_partitions).
  - lia.
  - apply (bool_decide_unpack _). vm_compute. exact I.
Defined.

Lemma metrics_copied_witness :
  exists md : Metadata,
    create_model_metadata example_metrics = Ok md
    /\ example_metrics !! "accuracy" = Some (accuracy (performance_metrics md))
    /\ example_metrics !! "precision" = Some (precision (performance_metrics md))
    /\ example_metrics !! "recall" = Some (recall (performance_metrics md)).
Proof.
  eexists. split.
  - reflexivity.
  - apply (metrics_copied example_metrics). reflexivity.
Defined.

Lemma only_four_keys_read_witness :
  create_model_metadata example_metrics
  = create_model_metadata (<["loss" := 0.3%Q]> example_metrics).
Proof.
  apply (only_four_keys_read example_metrics (<["loss" := 0.3%Q]> example_metrics)).
  intros key [<-|[<-|[<-|[<-|[]]]]]; reflexivity.
Defined.

Lemma first_missing_key_raised_witness :
  create_model_metadata metrics_without_precision = Raise (KeyError "precision").
Proof.
  apply (proj1 (proj2 (first_missing_key_raised metrics_without_precision))).
  - eexists. reflexivity.
  - reflexivity.
Defined.

Lemma metadata_describes_model_config_witness :
  exists md : Metadata,
    create_model_metadata example_metrics = Ok md
    /\ epochs (training_info md) = cm.epochs (cm.parameters model_config)
    /\ batch_size (training_info md) = cm.batchSize (cm.parameters model_config).
Proof.
  eexists. split.
  - reflexivity.
  - destruct (metadata_describes_model_config example_metrics _ eq_refl)
      as (He & Hb & _).
    split; [exact He | exact Hb].
Defined.

Lemma train_raise_saves_nothing_witness :
  exists lines : list string,
    snd (train_core_ml_model (Tape.replay []) (fixed_trainer metrics_without_precision)
           no_digits [] [] "model.mlmodel" (silent_world _))
    = added (silent_world _) (map Printed lines).
Proof.
  apply (train_raise_saves_nothing (Tape.replay [])
           (fixed_trainer metrics_without_precision) no_digits [] [] "model.mlmodel"
           (silent_world _) _ (KeyError "precision")).
  reflexivity.
Defined.

Lemma train_returns_witness :
  exists a p r,
    example_metrics !! "accuracy" = Some a
    /\ example_metrics !! "precision" = Some p
    /\ example_metrics !! "recall" = Some r.
Proof.
  destruct (train_returns (Tape.replay []) (fixed_trainer example_metrics) no_digits
              [] [] "model.mlmodel" (silent_world _)
              (snd (train_core_ml_model (Tape.replay []) (fixed_trainer example_metrics)
                      no_digits [] [] "model.mlmodel" (silent_world _)))
              example_metrics example_metrics eq_refl)
    as (_ & _ & a & p & r & Ha & Hp & Hr & _).
  exists a, p, r. repeat split; assumption.
Defined.

Lemma main_returns_witness :
  exists (train test : DataFrame) (metadata : Metadata),
    create_ml_training_data sklearn.in_order
      (fst (generate_synthetic_sleep_data (Tape.replay []) 10000 [])) = Ok (train, test)
    /\ Z.of_nat (length train) = training_samples (training_info metadata)
    /\ Z.of_nat (length test) = validation_samples (training_info metadata)
    /\ create_model_metadata example_metrics = Ok metadata.
Proof.
  destruct silent_table_split as (train & test & Hsplit).
  destruct (main_returns_when (Tape.replay []) sklearn.in_order
              (fixed_trainer example_metrics) no_digits
              (silent_world (fixed_trainer example_metrics))
              train test example_metrics 0.91%Q 0.88%Q 0.85%Q
              Hsplit eq_refl eq_refl eq_refl eq_refl) as [w' Hmain].
  destruct (main_returns (Tape.replay []) sklearn.in_order
              (fixed_trainer example_metrics) no_digits
              (silent_world (fixed_trainer example_metrics)) w'
              example_metrics example_metrics in_order_partitions Hmain)
    as (tr & te & md & a & p & r & H1 & H2 & H3 & _ & _ & H6 & _).
  exists tr, te, md.
  split; [exact H1 | split; [exact H2 | split; [exact H3 | exact H6]]].
Defined.

Lemma main_raise_writes_nothing_witness :
  exists lines : list string,
    events (snd (main (Tape.replay []) sklearn.in_order failing_trainer no_digits
                   (silent_world failing_trainer)))
    = events (silent_world failing_trainer) ++
        Printed "🚀 Starting Sleep Stage Prediction Model Training..."
        :: MadeDirs "SomnaSync/ML"
        :: map Printed lines.
Proof.
  destruct silent_table_split as (train & test & Hsplit).
  assert (Hmain : exists w',
             main (Tape.replay []) sklearn.in_order failing_trainer no_digits
               (silent_world failing_trainer)
             = (Raise (ValueError "training failed"), w')).
  { rewrite main_run. cbv zeta.
    change (generator (silent_world failing_trainer)) with (@nil Q).
    rewrite Hsplit, train_core_ml_model_run. cbn. eauto. }
  destruct Hmain as [w' Hmain]. rewrite Hmain. cbn [snd].
  apply (main_raise_writes_nothing (Tape.replay []) sklearn.in_order failing_trainer
           no_digits (silent_world failing_trainer) w'
           (ValueError "training failed") Hmain).
Defined.
